(** * VoidGuard safety engine: compliance scoring, risk assessment,
      recommendations and the bounded audit log.

    A shallow embedding of [src/services/VoidGuardService.js]
    (class [VoidGuardSafetyEngine]).  JavaScript numbers are IEEE 754
    binary64 values, modelled by Rocq's primitive floats; exceptions are
    modelled by a completion type; the engine's mutable fields
    ([config], [auditLog]) are passed explicitly. *)

From Stdlib Require Import List String Bool Arith ZArith Lia Uint63 PrimFloat.
From Stdlib Require Import DecimalString.
From Stdlib Require Import SpecFloat FloatOps FloatAxioms Permutation.
Import ListNotations.
Set Warnings "-inexact-float,-register-all".

Open Scope string_scope.
Open Scope list_scope.

(* ================================================================== *)
(** ** A fragment of JavaScript: values, property reads, exceptions   *)
(* ================================================================== *)

Module Js.

(** The values a descriptor or a context can be built from: the JSON
    values and [undefined]. An object is the list of its own properties
    in insertion order. *)
Inductive JsValue : Type :=
| JUndefined
| JNull
| JBool (b : bool)
| JNum (x : float)
| JStr (s : string)
| JArr (elems : list JsValue)
| JObj (props : list (string * JsValue)).

(** A thrown error object: its [name] and its [message]. *)
Record JsError : Type := mkError { name : string; message : string }.

Definition TypeError (msg : string) : JsError :=
  {| name := "TypeError"; message := msg |}.

(** The outcome of evaluating a piece of code: a value, or a throw. *)
Inductive Completion (A : Type) : Type :=
| Normal (a : A)
| Throw (e : JsError).
Arguments Normal {A} a.
Arguments Throw {A} e.

Definition ret {A} (a : A) : Completion A := Normal a.

Definition bind {A B} (m : Completion A) (k : A -> Completion B)
  : Completion B :=
  match m with
  | Normal a => k a
  | Throw e => Throw e
  end.

(** [ToBoolean]: [undefined], [null], [false], [0], [-0], [NaN] and the
    empty string are falsy, every other value is truthy. *)
Definition ToBoolean (v : JsValue) : bool :=
  match v with
  | JUndefined | JNull => false
  | JBool b => b
  | JNum x => negb (is_zero x || is_nan x)
  | JStr s => negb (String.eqb s "")
  | JArr _ | JObj _ => true
  end.

Fixpoint lookup (p : string) (props : list (string * JsValue)) : JsValue :=
  match props with
  | [] => JUndefined
  | (k, v) :: rest => if String.eqb k p then v else lookup p rest
  end.

Definition Number_of_nat (n : nat) : float :=
  PrimFloat.of_uint63 (Uint63.of_Z (Z.of_nat n)).

(** [v.p] for a property name [p] that is not an array index: reading a
    property of [undefined] or [null] throws a TypeError; a missing
    property reads as [undefined]; arrays and strings have a [length]. *)
Definition Get (v : JsValue) (p : string) : Completion JsValue :=
  match v with
  | JUndefined =>
      Throw (TypeError ("Cannot read properties of undefined (reading '"
                          ++ p ++ "')"))
  | JNull =>
      Throw (TypeError ("Cannot read properties of null (reading '"
                          ++ p ++ "')"))
  | JBool _ | JNum _ => Normal JUndefined
  | JStr s =>
      Normal (if String.eqb p "length"
              then JNum (Number_of_nat (String.length s)) else JUndefined)
  | JArr elems =>
      Normal (if String.eqb p "length"
              then JNum (Number_of_nat (List.length elems)) else JUndefined)
  | JObj props => Normal (lookup p props)
  end.

(** [v === 0]. *)
Definition strictEqZero (v : JsValue) : bool :=
  match v with
  | JNum x => PrimFloat.eqb x 0
  | _ => false
  end.

(** [!e] *)
Definition js_not (e : Completion JsValue) : Completion bool :=
  bind e (fun v => ret (negb (ToBoolean v))).

(** [a || b] on conditions: [b] is evaluated only when [a] is false. *)
Definition js_or (a b : Completion bool) : Completion bool :=
  bind a (fun x => if x then ret true else b).

(** [Math.max(x, y)] *)
Definition Math_max (x y : float) : float :=
  if is_nan x || is_nan y then nan
  else if PrimFloat.ltb x y then y
  else if PrimFloat.ltb y x then x
  else if get_sign x then y else x.

(** [arr.push(x)] *)
Definition push {A} (arr : list A) (x : A) : list A := arr ++ [x].

(** [arr.slice(-k)]: the last [k] elements (all of them when there are
    fewer). *)
Definition slice_last {A} (k : nat) (arr : list A) : list A :=
  skipn (List.length arr - k) arr.

End Js.

Import Js.

Declare Scope js_scope.
Delimit Scope js_scope with js.
Notation "x <- m ;; k" := (bind m (fun x => k))
  (at level 61, m at next level, right associativity) : js_scope.
Notation "v @. p" := (Get v p) (at level 40, left associativity) : js_scope.
Notation "m @@. p" := (bind m (fun v => Get v p))
  (at level 40, left associativity) : js_scope.
Open Scope js_scope.

(* ================================================================== *)
(** ** Data model of the engine                                       *)
(* ================================================================== *)

(** The [type] of an issue: ['warning'] or ['error']. *)
Inductive IssueType : Type := type_warning | type_error.

(** The [status] of a category result: ['pass'], ['warning'], ['fail']. *)
Inductive Status : Type := status_pass | status_warning | status_fail.

(** The keys of the [safetyChecks] object built by [performSafetyChecks]. *)
Inductive Category : Type :=
| ethicalGuidelines
| dataPrivacy
| bias
| transparency
| humanControl
| robustness
| accountability
| regulatory.

Inductive RiskLevel : Type := risk_low | risk_medium | risk_high.

Inductive Priority : Type := priority_high | priority_medium.

Inductive SafetyStatus : Type := compliant | non_compliant.

(** One element of a category's [checks] array. *)
Record Issue : Type := mkIssue {
  type : IssueType;
  issue_message : string
}.

(** What each [check...] method returns. *)
Record CategoryResult : Type := mkCategoryResult {
  score : float;
  checks : list Issue;
  status : Status
}.

(** The [safetyChecks] object: its entries in [Object.entries] order. *)
Definition SafetyChecks : Type := list (Category * CategoryResult).

Record RiskAssessment : Type := mkRisk {
  level : RiskLevel;
  criticalFailures : nat;
  warnings : nat
}.

Record Recommendation : Type := mkRecommendation {
  priority : Priority;
  category : Category;
  issue : string;
  action : string
}.

Record Config : Type := mkConfig {
  complianceThreshold : float;
  auditEnabled : bool;
  transparencyLevel : string
}.

Record Metadata : Type := mkMetadata {
  validatorVersion : string;
  metadata_transparencyLevel : string;
  metadata_auditEnabled : bool
}.

Record ValidationResult : Type := mkValidationResult {
  validationId : string;
  timestamp : string;
  systemId : JsValue;
  safetyStatus : SafetyStatus;
  complianceScore : float;
  safetyChecks : SafetyChecks;
  riskAssessment : RiskAssessment;
  recommendations : list Recommendation;
  metadata : Metadata
}.

(** The [result] summary stored in a ['safety_validation'] audit event. *)
Record AuditSummary : Type := mkAuditSummary {
  summary_status : SafetyStatus;
  summary_score : float;
  summary_riskLevel : RiskLevel
}.

(** The argument of [logAuditEvent]; [event_timestamp] is [None] when the
    caller passes no timestamp. *)
Record Event : Type := mkEvent {
  event_type : string;
  event_validationId : string;
  event_result : AuditSummary;
  event_timestamp : option string
}.

(** An element of [auditLog]: the event with its [id] and [timestamp]. *)
Record AuditEvent : Type := mkAuditEvent {
  audit_type : string;
  audit_validationId : string;
  audit_result : AuditSummary;
  audit_id : string;
  audit_timestamp : string
}.

(** The engine's mutable state. *)
Record Engine : Type := mkEngine {
  config : Config;
  auditLog : list AuditEvent
}.

Definition Category_eqb (a b : Category) : bool :=
  match a, b with
  | ethicalGuidelines, ethicalGuidelines
  | dataPrivacy, dataPrivacy
  | bias, bias
  | transparency, transparency
  | humanControl, humanControl
  | robustness, robustness
  | accountability, accountability
  | regulatory, regulatory => true
  | _, _ => false
  end.

(** [safetyChecks[c]]: [None] stands for [undefined]. *)
Fixpoint safetyChecks_get (c : Category) (sc : SafetyChecks)
  : option CategoryResult :=
  match sc with
  | [] => None
  | (k, r) :: rest => if Category_eqb k c then Some r else safetyChecks_get c rest
  end.

(** [Object.values(safetyChecks)] *)
Definition Object_values (sc : SafetyChecks) : list CategoryResult :=
  map snd sc.

(* ================================================================== *)
(** ** The seven category checks                                      *)
(* ================================================================== *)

(** [if (cond) { checks.push(issue); score *= factor; }] on the pair of
    local variables [(checks, score)]. *)
Definition deduct (cond : Completion bool) (i : Issue) (factor : float)
  (st : list Issue * float) : Completion (list Issue * float) :=
  c <- cond ;;
  ret (if c then (push (fst st) i, (snd st * factor)%float) else st).

(** The statements of [checkEthicalGuidelines] before its [return]: the final
    values of the local variables [checks] and [score]. *)
Definition checkEthicalGuidelines_body (aiSystem : JsValue)
  : Completion (list Issue * float) :=
  let st := ([], 1.0%float) in
  st <- deduct
          (js_or (js_not (aiSystem @. "ethicalBoundaries"))
                 (len <- aiSystem @. "ethicalBoundaries" @@. "length" ;;
                  ret (strictEqZero len)))
          (mkIssue type_warning "No ethical boundaries defined") 0.8 st ;;
  st <- deduct (js_not (aiSystem @. "harmPrevention"))
          (mkIssue type_error "Harm prevention mechanisms not implemented")
          0.6 st ;;
  deduct (js_not (aiSystem @. "valuesAlignment"))
          (mkIssue type_warning "Human values alignment not documented")
          0.9 st.

Definition checkEthicalGuidelines (aiSystem : JsValue) : Completion CategoryResult :=
  st <- checkEthicalGuidelines_body aiSystem ;;
  let '(checks, score) := st in
  ret {| score := Math_max score 0;
         checks := checks;
         status := if (0.8 <=? score)%float then status_pass
                   else if (0.6 <=? score)%float then status_warning
                   else status_fail |}.

(** The statements of [checkDataPrivacy] before its [return]: the final
    values of the local variables [checks] and [score]. *)
Definition checkDataPrivacy_body (aiSystem : JsValue)
  : Completion (list Issue * float) :=
  let st := ([], 1.0%float) in
  st <- deduct
          (js_or (js_not (aiSystem @. "encryption"))
                 (js_not (aiSystem @. "encryption" @@. "enabled")))
          (mkIssue type_error "Data encryption not enabled") 0.5 st ;;
  st <- deduct (js_not (aiSystem @. "dataMinimization"))
          (mkIssue type_warning "Data minimization principles not applied")
          0.8 st ;;
  deduct (js_not (aiSystem @. "consentManagement"))
          (mkIssue type_error "User consent management not implemented")
          0.6 st.

Definition checkDataPrivacy (aiSystem : JsValue) : Completion CategoryResult :=
  st <- checkDataPrivacy_body aiSystem ;;
  let '(checks, score) := st in
  ret {| score := Math_max score 0;
         checks := checks;
         status := if (0.8 <=? score)%float then status_pass
                   else if (0.6 <=? score)%float then status_warning
                   else status_fail |}.

(** The statements of [checkBias] before its [return]: the final
    values of the local variables [checks] and [score]. *)
Definition checkBias_body (aiSystem : JsValue)
  : Completion (list Issue * float) :=
  let st := ([], 1.0%float) in
  st <- deduct
          (js_or (js_not (aiSystem @. "biasTesting"))
                 (js_not (aiSystem @. "biasTesting" @@. "conducted")))
          (mkIssue type_error "Bias testing not conducted") 0.4 st ;;
  st <- deduct (js_not (aiSystem @. "fairnessMetrics"))
          (mkIssue type_warning "Fairness metrics not defined") 0.8 st ;;
  deduct (js_not (aiSystem @. "datasetDiversity"))
          (mkIssue type_warning "Dataset diversity not validated") 0.9 st.

Definition checkBias (aiSystem : JsValue) : Completion CategoryResult :=
  st <- checkBias_body aiSystem ;;
  let '(checks, score) := st in
  ret {| score := Math_max score 0;
         checks := checks;
         status := if (0.8 <=? score)%float then status_pass
                   else if (0.6 <=? score)%float then status_warning
                   else status_fail |}.

(** The statements of [checkTransparency] before its [return]: the final
    values of the local variables [checks] and [score]. *)
Definition checkTransparency_body (aiSystem : JsValue)
  : Completion (list Issue * float) :=
  let st := ([], 1.0%float) in
  st <- deduct
          (js_or (js_not (aiSystem @. "explainability"))
                 (js_not (aiSystem @. "explainability" @@. "enabled")))
          (mkIssue type_error "AI explainability not implemented") 0.5 st ;;
  st <- deduct (js_not (aiSystem @. "decisionLogging"))
          (mkIssue type_warning "Decision logging not implemented") 0.8 st ;;
  deduct (js_not (aiSystem @. "modelDocumentation"))
          (mkIssue type_warning "Model documentation incomplete") 0.9 st.

Definition checkTransparency (aiSystem : JsValue) : Completion CategoryResult :=
  st <- checkTransparency_body aiSystem ;;
  let '(checks, score) := st in
  ret {| score := Math_max score 0;
         checks := checks;
         status := if (0.8 <=? score)%float then status_pass
                   else if (0.6 <=? score)%float then status_warning
                   else status_fail |}.

(** The statements of [checkHumanControl] before its [return]: the final
    values of the local variables [checks] and [score]. *)
Definition checkHumanControl_body (aiSystem : JsValue)
  : Completion (list Issue * float) :=
  let st := ([], 1.0%float) in
  st <- deduct
          (js_or (js_not (aiSystem @. "humanOversight"))
                 (js_not (aiSystem @. "humanOversight" @@. "enabled")))
          (mkIssue type_error "Human oversight not implemented") 0.3 st ;;
  st <- deduct (js_not (aiSystem @. "manualOverride"))
          (mkIssue type_error "Manual override not available") 0.5 st ;;
  deduct (js_not (aiSystem @. "escalationProcedures"))
          (mkIssue type_warning "Escalation procedures not defined") 0.9 st.

Definition checkHumanControl (aiSystem : JsValue) : Completion CategoryResult :=
  st <- checkHumanControl_body aiSystem ;;
  let '(checks, score) := st in
  ret {| score := Math_max score 0;
         checks := checks;
         status := if (0.8 <=? score)%float then status_pass
                   else if (0.6 <=? score)%float then status_warning
                   else status_fail |}.

(** The statements of [checkRobustness] before its [return]: the final
    values of the local variables [checks] and [score]. *)
Definition checkRobustness_body (aiSystem : JsValue)
  : Completion (list Issue * float) :=
  let st := ([], 1.0%float) in
  st <- deduct
          (js_or (js_not (aiSystem @. "adversarialTesting"))
                 (js_not (aiSystem @. "adversarialTesting" @@. "conducted")))
          (mkIssue type_warning "Adversarial testing not conducted") 0.8 st ;;
  st <- deduct (js_not (aiSystem @. "errorHandling"))
          (mkIssue type_error "Error handling mechanisms not implemented")
          0.6 st ;;
  deduct (js_not (aiSystem @. "performanceMonitoring"))
          (mkIssue type_warning "Performance monitoring not implemented")
          0.9 st.

Definition checkRobustness (aiSystem : JsValue) : Completion CategoryResult :=
  st <- checkRobustness_body aiSystem ;;
  let '(checks, score) := st in
  ret {| score := Math_max score 0;
         checks := checks;
         status := if (0.8 <=? score)%float then status_pass
                   else if (0.6 <=? score)%float then status_warning
                   else status_fail |}.

(** The statements of [checkAccountability] before its [return]: the final
    values of the local variables [checks] and [score]. *)
Definition checkAccountability_body (aiSystem : JsValue)
  : Completion (list Issue * float) :=
  let st := ([], 1.0%float) in
  st <- deduct (js_not (aiSystem @. "responsibilityMatrix"))
          (mkIssue type_error "Responsibility matrix not defined") 0.6 st ;;
  st <- deduct
          (js_or (js_not (aiSystem @. "auditTrail"))
                 (js_not (aiSystem @. "auditTrail" @@. "enabled")))
          (mkIssue type_error "Audit trail not enabled") 0.5 st ;;
  deduct (js_not (aiSystem @. "incidentResponse"))
          (mkIssue type_warning "Incident response procedures not defined")
          0.8 st.

Definition checkAccountability (aiSystem : JsValue) : Completion CategoryResult :=
  st <- checkAccountability_body aiSystem ;;
  let '(checks, score) := st in
  ret {| score := Math_max score 0;
         checks := checks;
         status := if (0.8 <=? score)%float then status_pass
                   else if (0.6 <=? score)%float then status_warning
                   else status_fail |}.

(* ================================================================== *)
(** ** Orchestration of the checks                                    *)
(* ================================================================== *)

(** The call [this.checkRegulatoryCompliance(aiSystem, regulatory)]: the
    class defines no method of that name, so the callee is [undefined]
    and the call throws. *)
Definition checkRegulatoryCompliance (aiSystem regulatory : JsValue)
  : Completion CategoryResult :=
  Throw (TypeError "this.checkRegulatoryCompliance is not a function").

Definition performSafetyChecks (aiSystem context : JsValue)
  : Completion SafetyChecks :=
  r1 <- checkEthicalGuidelines aiSystem ;;
  r2 <- checkDataPrivacy aiSystem ;;
  r3 <- checkBias aiSystem ;;
  r4 <- checkTransparency aiSystem ;;
  r5 <- checkHumanControl aiSystem ;;
  r6 <- checkRobustness aiSystem ;;
  r7 <- checkAccountability aiSystem ;;
  let checks := [ (ethicalGuidelines, r1); (dataPrivacy, r2); (bias, r3);
                  (transparency, r4); (humanControl, r5); (robustness, r6);
                  (accountability, r7) ] in
  reg <- context @. "regulatory" ;;
  if ToBoolean reg then
    r8 <- checkRegulatoryCompliance aiSystem reg ;;
    ret (push checks (regulatory, r8))
  else ret checks.

(* ================================================================== *)
(** ** Compliance score, risk, recommendations                        *)
(* ================================================================== *)

(** The [weights] object of [calculateComplianceScore], in
    [Object.entries] order. *)
Definition weights : list (Category * float) :=
  [ (ethicalGuidelines, 0.2%float); (dataPrivacy, 0.15%float);
    (bias, 0.15%float); (transparency, 0.15%float);
    (humanControl, 0.2%float); (robustness, 0.1%float);
    (accountability, 0.05%float) ].

(** One iteration of the loop of [calculateComplianceScore] on the pair
    [(totalScore, totalWeight)]. *)
Definition accumulate (sc : SafetyChecks) (acc : float * float)
  (entry : Category * float) : float * float :=
  let '(totalScore, totalWeight) := acc in
  let '(check, weight) := entry in
  match safetyChecks_get check sc with
  | Some r => ((totalScore + score r * weight)%float,
               (totalWeight + weight)%float)
  | None => (totalScore, totalWeight)
  end.

Definition calculateComplianceScore (sc : SafetyChecks) : float :=
  let '(totalScore, totalWeight) :=
    fold_left (accumulate sc) weights (0%float, 0%float) in
  if (0 <? totalWeight)%float then (totalScore / totalWeight)%float
  else 0%float.

Definition is_error (c : Issue) : bool :=
  match type c with type_error => true | type_warning => false end.

Definition is_warning (c : Issue) : bool :=
  match type c with type_warning => true | type_error => false end.

Definition is_fail (check : CategoryResult) : bool :=
  match status check with status_fail => true | _ => false end.

Definition assessRisk (aiSystem : JsValue) (sc : SafetyChecks)
  : RiskAssessment :=
  let criticalFailures :=
    List.length
      (filter (fun check => is_fail check && existsb is_error (checks check))
              (Object_values sc)) in
  let warnings :=
    fold_left
      (fun total check =>
         total + List.length (filter is_warning (checks check)))
      (Object_values sc) 0 in
  let riskLevel :=
    if (2 <? criticalFailures)%nat || (5 <? warnings)%nat then risk_high
    else if (0 <? criticalFailures)%nat || (2 <? warnings)%nat
         then risk_medium
    else risk_low in
  {| level := riskLevel;
     criticalFailures := criticalFailures;
     warnings := warnings |}.

(** The [actionMap] table of [getRecommendedAction]. *)
Definition actionMap : list (Category * list (string * string)) :=
  [ (ethicalGuidelines,
      [ ("No ethical boundaries defined",
         "Define clear ethical boundaries and prohibited use cases");
        ("Harm prevention mechanisms not implemented",
         "Implement content filtering and harm prevention systems");
        ("Human values alignment not documented",
         "Document human values alignment methodology") ]);
    (dataPrivacy,
      [ ("Data encryption not enabled",
         "Enable end-to-end encryption for all data processing");
        ("User consent management not implemented",
         "Implement comprehensive consent management system");
        ("Data minimization principles not applied",
         "Review and minimize data collection requirements") ]);
    (humanControl,
      [ ("Human oversight not implemented",
         "Implement mandatory human oversight for critical decisions");
        ("Manual override not available",
         "Add manual override capabilities for all automated decisions") ]) ].

Fixpoint actionMap_get (c : Category)
  (m : list (Category * list (string * string)))
  : option (list (string * string)) :=
  match m with
  | [] => None
  | (k, v) :: rest => if Category_eqb k c then Some v else actionMap_get c rest
  end.

Fixpoint actions_get (i : string) (m : list (string * string))
  : option string :=
  match m with
  | [] => None
  | (k, v) :: rest => if String.eqb k i then Some v else actions_get i rest
  end.

(** [actionMap[category]?.[issue] || 'Review and address this safety
    concern'], on the table's own entries. *)
Definition getRecommendedAction (category : Category) (issue : string)
  : string :=
  match actionMap_get category actionMap with
  | Some m =>
      match actions_get issue m with
      | Some a => if String.eqb a "" then "Review and address this safety concern"
                  else a
      | None => "Review and address this safety concern"
      end
  | None => "Review and address this safety concern"
  end.

(** The first [forEach] of [generateRecommendations], for one entry. *)
Definition recommendCritical (recommendations : list Recommendation)
  (entry : Category * CategoryResult) : list Recommendation :=
  let '(category, check) := entry in
  if is_fail check then
    let criticalIssues := filter is_error (checks check) in
    fold_left
      (fun recs issue =>
         push recs {| priority := priority_high;
                      category := category;
                      issue := issue_message issue;
                      action := getRecommendedAction category
                                  (issue_message issue) |})
      criticalIssues recommendations
  else recommendations.

(** The second [forEach] of [generateRecommendations], for one entry. *)
Definition recommendWarnings (recommendations : list Recommendation)
  (entry : Category * CategoryResult) : list Recommendation :=
  let '(category, check) := entry in
  let warnings := filter is_warning (checks check) in
  fold_left
    (fun recs warning =>
       push recs {| priority := priority_medium;
                    category := category;
                    issue := issue_message warning;
                    action := getRecommendedAction category
                                (issue_message warning) |})
    warnings recommendations.

Definition generateRecommendations (sc : SafetyChecks)
  (riskAssessment : RiskAssessment) : list Recommendation :=
  let recommendations := [] in
  let recommendations := fold_left recommendCritical sc recommendations in
  let recommendations := fold_left recommendWarnings sc recommendations in
  recommendations.

(* ================================================================== *)
(** ** The audit log                                                  *)
(* ================================================================== *)

(** [s || d] for an optional string: [undefined] and [''] are falsy. *)
Definition string_or (s : option string) (d : string) : string :=
  match s with
  | Some x => if String.eqb x "" then d else x
  | None => d
  end.

(** [logAuditEvent(event)]; [uuid] is the value [uuidv4()] returns and
    [now] the value of [new Date().toISOString()] at the call. *)
Definition logAuditEvent (eng : Engine) (event : Event) (uuid now : string)
  : Engine :=
  let auditLog :=
    push (auditLog eng)
         {| audit_type := event_type event;
            audit_validationId := event_validationId event;
            audit_result := event_result event;
            audit_id := uuid;
            audit_timestamp := string_or (event_timestamp event) now |} in
  let auditLog :=
    if (1000 <? List.length auditLog)%nat then slice_last 1000 auditLog
    else auditLog in
  {| config := config eng; auditLog := auditLog |}.

(** The [filters] argument of [getAuditLog]. *)
Record Filters : Type := mkFilters {
  filter_type : option string;
  startDate : option string;
  endDate : option string
}.

Definition no_filters : Filters :=
  {| filter_type := None; startDate := None; endDate := None |}.

Definition truthy_string (s : option string) : bool :=
  match s with
  | Some x => negb (String.eqb x "")
  | None => false
  end.

Section AuditQuery.

(** The time value of [new Date(s)] ([NaN] for an invalid date). *)
Variable Date_value : string -> float.

Definition getAuditLog (eng : Engine) (filters : Filters) : list AuditEvent :=
  let log := auditLog eng in
  let log :=
    if truthy_string (filter_type filters) then
      filter (fun event =>
                String.eqb (audit_type event) (string_or (filter_type filters) ""))
             log
    else log in
  let log :=
    if truthy_string (startDate filters) then
      filter (fun event =>
                (Date_value (string_or (startDate filters) "")
                 <=? Date_value (audit_timestamp event))%float)
             log
    else log in
  let log :=
    if truthy_string (endDate filters) then
      filter (fun event =>
                (Date_value (audit_timestamp event)
                 <=? Date_value (string_or (endDate filters) ""))%float)
             log
    else log in
  log.

End AuditQuery.

(** One call of [logAuditEvent]: the event, and the identifier and the
    clock reading the call obtains. *)
Definition Append : Type := (Event * (string * string))%type.

(** The entry an append stores. *)
Definition stamp (a : Append) : AuditEvent :=
  let '(event, (uuid, now)) := a in
  {| audit_type := event_type event;
     audit_validationId := event_validationId event;
     audit_result := event_result event;
     audit_id := uuid;
     audit_timestamp := string_or (event_timestamp event) now |}.

(** A sequence of calls of [logAuditEvent], in order. *)
Definition appendAll (eng : Engine) (reqs : list Append) : Engine :=
  fold_left (fun eng '(event, (uuid, now)) => logAuditEvent eng event uuid now)
            reqs eng.

(* ================================================================== *)
(** ** The engine: constructor and [validateSafety]                   *)
(* ================================================================== *)

(** The [config] argument of the constructor; [None] is an absent key. *)
Record ConfigArg : Type := mkConfigArg {
  arg_complianceThreshold : option float;
  arg_auditEnabled : option bool;
  arg_transparencyLevel : option string
}.

(** What the constructor reads from [process.env]:
    [parseFloat(process.env.VOIDGUARD_COMPLIANCE_THRESHOLD)] ([NaN] when
    unset), [process.env.VOIDGUARD_AUDIT_ENABLED === 'true'] and
    [process.env.VOIDGUARD_TRANSPARENCY_LEVEL]. *)
Record ProcessEnv : Type := mkProcessEnv {
  env_complianceThreshold : float;
  env_auditEnabled : bool;
  env_transparencyLevel : option string
}.

(** [x || y] on numbers: [0], [-0] and [NaN] are falsy. *)
Definition number_or (x : option float) (y : float) : float :=
  match x with
  | Some v => if is_zero v || is_nan v then y else v
  | None => y
  end.

(** [{ ...defaults, ...config }]: a key present in [config] wins. *)
Definition spread {A} (default : A) (given : option A) : A :=
  match given with Some v => v | None => default end.

Definition constructor (cfg : ConfigArg) (env : ProcessEnv) : Engine :=
  {| config :=
       {| complianceThreshold :=
            spread
              (number_or (arg_complianceThreshold cfg)
                 (number_or (Some (env_complianceThreshold env)) 0.95%float))
              (arg_complianceThreshold cfg);
          auditEnabled :=
            spread
              (match arg_auditEnabled cfg with
               | Some true => true
               | _ => env_auditEnabled env
               end)
              (arg_auditEnabled cfg);
          transparencyLevel :=
            spread
              (string_or (arg_transparencyLevel cfg)
                 (string_or (env_transparencyLevel env) "full"))
              (arg_transparencyLevel cfg) |};
     auditLog := [] |}.

(** The values [validateSafety] obtains from [uuidv4()] and the clock:
    for the validation itself, and for the audit event it may log. *)
Record Fresh : Type := mkFresh {
  fresh_validationId : string;
  fresh_timestamp : string;
  fresh_eventId : string;
  fresh_eventNow : string
}.

(** A parameter declared [p = d]: [d] replaces an [undefined] argument. *)
Definition default_parameter (arg d : JsValue) : JsValue :=
  match arg with
  | JUndefined => d
  | _ => arg
  end.

(** [validateSafety(aiSystem, context)]: the result together with the
    engine afterwards, or the error thrown (the engine is then as
    before). *)
Definition validateSafety (eng : Engine) (fresh : Fresh)
  (aiSystem context : JsValue) : Completion (ValidationResult * Engine) :=
  let context := default_parameter context (JObj []) in
  let validationId := fresh_validationId fresh in
  let timestamp := fresh_timestamp fresh in
  (* logger.info('Starting safety validation', { systemId: aiSystem.id, ... }) *)
  systemId <- aiSystem @. "id" ;;
  systemType <- aiSystem @. "type" ;;
  safetyChecks <- performSafetyChecks aiSystem context ;;
  let complianceScore := calculateComplianceScore safetyChecks in
  let riskAssessment := assessRisk aiSystem safetyChecks in
  systemId <- aiSystem @. "id" ;;
  let result :=
    {| validationId := validationId;
       timestamp := timestamp;
       systemId := systemId;
       safetyStatus :=
         if (complianceThreshold (config eng) <=? complianceScore)%float
         then compliant else non_compliant;
       complianceScore := complianceScore;
       safetyChecks := safetyChecks;
       riskAssessment := riskAssessment;
       recommendations :=
         generateRecommendations safetyChecks riskAssessment;
       metadata :=
         {| validatorVersion := "1.0.0";
            metadata_transparencyLevel := transparencyLevel (config eng);
            metadata_auditEnabled := auditEnabled (config eng) |} |} in
  let eng :=
    if auditEnabled (config eng) then
      logAuditEvent eng
        {| event_type := "safety_validation";
           event_validationId := validationId;
           event_result :=
             {| summary_status := safetyStatus result;
                summary_score := complianceScore;
                summary_riskLevel := level riskAssessment |};
           event_timestamp := Some timestamp |}
        (fresh_eventId fresh) (fresh_eventNow fresh)
    else eng in
  ret (result, eng).

(** The seven checks [performSafetyChecks] always runs, by key. *)
Definition category_checks
  : list (Category * (JsValue -> Completion CategoryResult)) :=
  [ (ethicalGuidelines, checkEthicalGuidelines);
    (dataPrivacy, checkDataPrivacy);
    (bias, checkBias);
    (transparency, checkTransparency);
    (humanControl, checkHumanControl);
    (robustness, checkRobustness);
    (accountability, checkAccountability) ].

(** The same checks stopped before their [return]. *)
Definition category_bodies
  : list (Category * (JsValue -> Completion (list Issue * float))) :=
  [ (ethicalGuidelines, checkEthicalGuidelines_body);
    (dataPrivacy, checkDataPrivacy_body);
    (bias, checkBias_body);
    (transparency, checkTransparency_body);
    (humanControl, checkHumanControl_body);
    (robustness, checkRobustness_body);
    (accountability, checkAccountability_body) ].

(** A descriptor is inspectable when its properties can be read: it is
    neither [undefined] nor [null]. *)
Definition inspectable (v : JsValue) : bool :=
  match v with
  | JUndefined | JNull => false
  | _ => true
  end.

(** A context that asks for no regulatory check: [undefined] (the
    default [{}] is used) or a value whose [regulatory] property is
    falsy. *)
Definition no_regulatory (context : JsValue) : bool :=
  match context with
  | JUndefined => true
  | JNull => false
  | _ => match Get context "regulatory" with
         | Normal reg => negb (ToBoolean reg)
         | Throw _ => false
         end
  end.

(* ================================================================== *)
(** ** The specification's reading of the engine                      *)
(* ================================================================== *)

Module Spec.

(** How a flag of the descriptor counts as absent or disabled: a plain
    flag is absent when falsy; a list flag also when it has length [0];
    a structured flag also when its named sub-flag is falsy. *)
Inductive FlagKind : Type :=
| Plain
| NonEmpty
| Enabled (sub : string).

(** One row of the table of category sub-conditions. *)
Record Row : Type := mkRow {
  flag : string;
  kind : FlagKind;
  penalty : float;
  severity : IssueType
}.

(** The table of section 4.1, category by category, rows in order. *)
Definition table (c : Category) : list Row :=
  match c with
  | ethicalGuidelines =>
      [ mkRow "ethicalBoundaries" NonEmpty 0.8 type_warning;
        mkRow "harmPrevention" Plain 0.6 type_error;
        mkRow "valuesAlignment" Plain 0.9 type_warning ]
  | dataPrivacy =>
      [ mkRow "encryption" (Enabled "enabled") 0.5 type_error;
        mkRow "dataMinimization" Plain 0.8 type_warning;
        mkRow "consentManagement" Plain 0.6 type_error ]
  | bias =>
      [ mkRow "biasTesting" (Enabled "conducted") 0.4 type_error;
        mkRow "fairnessMetrics" Plain 0.8 type_warning;
        mkRow "datasetDiversity" Plain 0.9 type_warning ]
  | transparency =>
      [ mkRow "explainability" (Enabled "enabled") 0.5 type_error;
        mkRow "decisionLogging" Plain 0.8 type_warning;
        mkRow "modelDocumentation" Plain 0.9 type_warning ]
  | humanControl =>
      [ mkRow "humanOversight" (Enabled "enabled") 0.3 type_error;
        mkRow "manualOverride" Plain 0.5 type_error;
        mkRow "escalationProcedures" Plain 0.9 type_warning ]
  | robustness =>
      [ mkRow "adversarialTesting" (Enabled "conducted") 0.8 type_warning;
        mkRow "errorHandling" Plain 0.6 type_error;
        mkRow "performanceMonitoring" Plain 0.9 type_warning ]
  | accountability =>
      [ mkRow "responsibilityMatrix" Plain 0.6 type_error;
        mkRow "auditTrail" (Enabled "enabled") 0.5 type_error;
        mkRow "incidentResponse" Plain 0.8 type_warning ]
  | regulatory => []
  end.

(** The value of property [p] of [v], [undefined] when it has none. *)
Definition read (v : JsValue) (p : string) : JsValue :=
  match Get v p with
  | Normal x => x
  | Throw _ => JUndefined
  end.

Definition absent (v : JsValue) (p : string) : bool :=
  negb (ToBoolean (read v p)).

(** The sub-condition of row [r] fails on descriptor [d]. *)
Definition deficient (d : JsValue) (r : Row) : bool :=
  match kind r with
  | Plain => absent d (flag r)
  | NonEmpty =>
      absent d (flag r) || strictEqZero (read (read d (flag r)) "length")
  | Enabled sub => absent d (flag r) || absent (read d (flag r)) sub
  end.

(** The rows whose sub-condition fails, in table order. *)
Definition deductions (d : JsValue) (c : Category) : list Row :=
  filter (deficient d) (table c).

(** The running score: [1.0] multiplied by each penalty in turn. *)
Definition running_score (rows : list Row) : float :=
  fold_left (fun s r => (s * penalty r)%float) rows 1.0%float.

(** The threshold rule for a category status. *)
Definition status_of (s : float) : Status :=
  if (0.8 <=? s)%float then status_pass
  else if (0.6 <=? s)%float then status_warning
  else status_fail.

(** The entries of a weight table whose category is present in [sc],
    each with the category's result, in table order. *)
Definition present_in (ws : list (Category * float)) (sc : SafetyChecks)
  : list (CategoryResult * float) :=
  flat_map (fun '(c, w) =>
              match safetyChecks_get c sc with
              | Some r => [(r, w)]
              | None => []
              end) ws.

Definition present (sc : SafetyChecks) : list (CategoryResult * float) :=
  present_in weights sc.

(** Left-to-right sum of a list of numbers, from [start]. *)
Definition float_sum_from (start : float) (l : list float) : float :=
  fold_left (fun a x => (a + x)%float) l start.

Definition float_sum (l : list float) : float := float_sum_from 0%float l.

(** Numerator and normalizer of the weighted mean. *)
Definition weighted_sum (sc : SafetyChecks) : float :=
  float_sum (map (fun '(r, w) => (score r * w)%float) (present sc)).

Definition weight_sum (sc : SafetyChecks) : float :=
  float_sum (map snd (present sc)).

Definition weighted_mean (sc : SafetyChecks) : float :=
  (weighted_sum sc / weight_sum sc)%float.

(** The seven fixed categories. *)
Definition fixed_categories : list Category :=
  [ ethicalGuidelines; dataPrivacy; bias; transparency; humanControl;
    robustness; accountability ].

(** A category that both failed and holds an error-severity issue. *)
Definition critical (r : CategoryResult) : Prop :=
  status r = status_fail /\ exists i, In i (checks r) /\ type i = type_error.

(** [counts P l n]: exactly [n] elements of [l] satisfy [P]. *)
Inductive counts {A : Type} (P : A -> Prop) : list A -> nat -> Prop :=
| counts_nil : counts P [] 0
| counts_yes (x : A) (l : list A) (n : nat) :
    P x -> counts P l n -> counts P (x :: l) (S n)
| counts_no (x : A) (l : list A) (n : nat) :
    ~ P x -> counts P l n -> counts P (x :: l) n.

(** Every issue of every category, category after category. *)
Definition all_issues (sc : SafetyChecks) : list Issue :=
  flat_map checks (Object_values sc).

(** The recommendation for one issue. *)
Definition recommend (p : Priority) (c : Category) (i : Issue)
  : Recommendation :=
  {| priority := p; category := c; issue := issue_message i;
     action := getRecommendedAction c (issue_message i) |}.

(** Pass 1: the error issues of the failing categories. *)
Definition pass1 (sc : SafetyChecks) : list Recommendation :=
  flat_map (fun '(c, r) =>
              if is_fail r
              then map (recommend priority_high c) (filter is_error (checks r))
              else []) sc.

(** Pass 2: the warning issues of every category. *)
Definition pass2 (sc : SafetyChecks) : list Recommendation :=
  flat_map (fun '(c, r) =>
              map (recommend priority_medium c) (filter is_warning (checks r)))
           sc.

(** The last [k] elements of a list. *)
Definition last_n {A} (k : nat) (l : list A) : list A :=
  rev (firstn k (rev l)).

End Spec.

Import Spec.

(** What a check body computes, against the table. *)
Definition body_matches (d : JsValue) (c : Category)
  (st : list Issue * float) : Prop :=
  map type (fst st) = map severity (deductions d c)
  /\ snd st = running_score (deductions d c).

(* ================================================================== *)
(** ** Sample descriptors and inputs                                  *)
(* ================================================================== *)

(** A descriptor with human oversight enabled and nothing else. *)
Definition oversight_only : JsValue :=
  JObj [ ("id", JStr "sys-1");
         ("humanOversight", JObj [ ("enabled", JBool true) ]) ].


(** Results for two categories only: ethics at 0.5 and robustness at 1. *)
Definition two_categories : SafetyChecks :=
  [ (robustness, mkCategoryResult 1%float [] status_pass);
    (ethicalGuidelines,
      mkCategoryResult 0.5%float
        [ mkIssue type_error "Harm prevention mechanisms not implemented" ]
        status_fail) ].

(** Results in which bias failed on an error and on two warnings,
    transparency holds an error without failing, and robustness holds
    one warning. *)
Definition mixed_results : SafetyChecks :=
  [ (bias,
      mkCategoryResult 0.288%float
        [ mkIssue type_error "Bias testing not conducted";
          mkIssue type_warning "Fairness metrics not defined";
          mkIssue type_warning "Dataset diversity not validated" ]
        status_fail);
    (transparency,
      mkCategoryResult 0.6%float
        [ mkIssue type_error "AI explainability not implemented" ]
        status_warning);
    (robustness,
      mkCategoryResult 0.8%float
        [ mkIssue type_warning "Adversarial testing not conducted" ]
        status_pass) ].

(** The properties of a descriptor with every safeguard declared. *)
Definition fully_compliant_props : list (string * JsValue) :=
  [ ("id", JStr "sys-1");
    ("type", JStr "classifier");
    ("ethicalBoundaries", JArr [ JStr "no medical advice" ]);
    ("harmPrevention", JBool true);
    ("valuesAlignment", JBool true);
    ("encryption", JObj [ ("enabled", JBool true) ]);
    ("dataMinimization", JBool true);
    ("consentManagement", JBool true);
    ("biasTesting", JObj [ ("conducted", JBool true) ]);
    ("fairnessMetrics", JBool true);
    ("datasetDiversity", JBool true);
    ("explainability", JObj [ ("enabled", JBool true) ]);
    ("decisionLogging", JBool true);
    ("modelDocumentation", JBool true);
    ("humanOversight", JObj [ ("enabled", JBool true) ]);
    ("manualOverride", JBool true);
    ("escalationProcedures", JBool true);
    ("adversarialTesting", JObj [ ("conducted", JBool true) ]);
    ("errorHandling", JBool true);
    ("performanceMonitoring", JBool true);
    ("responsibilityMatrix", JBool true);
    ("auditTrail", JObj [ ("enabled", JBool true) ]);
    ("incidentResponse", JBool true) ].

Definition fully_compliant : JsValue := JObj fully_compliant_props.

(** The same descriptor without the listed properties. *)
Definition without (keys : list string) (props : list (string * JsValue))
  : list (string * JsValue) :=
  filter (fun kv => negb (existsb (String.eqb (fst kv)) keys)) props.

(** No bias testing (an error that fails the bias category) and no
    performance monitoring (a lone warning in robustness). *)
Definition bias_failing : JsValue :=
  JObj (without [ "biasTesting"; "performanceMonitoring" ]
          fully_compliant_props).

(** A category result without its error issues. *)
Definition drop_errors (r : CategoryResult) : CategoryResult :=
  {| score := score r;
     checks := filter is_warning (checks r);
     status := status r |}.

Definition default_config : Config :=
  {| complianceThreshold := 0.95%float;
     auditEnabled := true;
     transparencyLevel := "full" |}.

(** The [n]-th of a series of validation events, numbered in its id. *)
Definition nth_request (n : nat) : Append :=
  ({| event_type := "safety_validation";
      event_validationId := NilEmpty.string_of_uint (Nat.to_uint n);
      event_result := {| summary_status := compliant;
                         summary_score := 1%float;
                         summary_riskLevel := risk_low |};
      event_timestamp := Some "2024-01-01T00:00:00.000Z" |},
   (NilEmpty.string_of_uint (Nat.to_uint n), "2024-01-01T00:00:00.000Z")).

(** 1500 appends, numbered 0 to 1499. *)
Definition requests_1500 : list Append := map nth_request (seq 0 1500).

(** An engine built with no configuration and an empty environment. *)
Definition default_engine : Engine :=
  constructor
    {| arg_complianceThreshold := None;
       arg_auditEnabled := None;
       arg_transparencyLevel := None |}
    {| env_complianceThreshold := nan;
       env_auditEnabled := false;
       env_transparencyLevel := None |}.

Definition sample_fresh : Fresh :=
  {| fresh_validationId := "0b4c2a7e-validation";
     fresh_timestamp := "2024-01-01T00:00:00.000Z";
     fresh_eventId := "5d1f9c3a-event";
     fresh_eventNow := "2024-01-01T00:00:00.001Z" |}.

(** A context asking for a regulatory check. *)
Definition regulatory_context : JsValue :=
  JObj [ ("regulatory", JStr "GDPR") ].

(** Every sub-condition of the table holds on the descriptor: each flag
    is present and, where it applies, enabled or non-empty. *)
Definition all_flags_enabled (d : JsValue) : Prop :=
  forall c row, In row (table c) -> deficient d row = false.

(** The action given for a pair that the table does not map. *)
Definition generic_action : string := "Review and address this safety concern".

(** The result of a check that found nothing. *)
Definition clean_result : CategoryResult :=
  {| score := 1%float; checks := []; status := status_pass |}.
(* ================================================================== *)
(** ** The rest of the engine and the service facade                  *)
(* ================================================================== *)

(** What [getHealthStatus] returns; [health_timestamp] is the clock
    reading of the call. *)
Record HealthStatus : Type := mkHealthStatus {
  health_status : string;
  health_timestamp : string;
  health_config : Config;
  auditLogSize : nat;
  version : string
}.

Definition getHealthStatus (eng : Engine) (now : string) : HealthStatus :=
  {| health_status := "healthy";
     health_timestamp := now;
     health_config :=
       {| complianceThreshold := complianceThreshold (config eng);
          auditEnabled := auditEnabled (config eng);
          transparencyLevel := transparencyLevel (config eng) |};
     auditLogSize := List.length (auditLog eng);
     version := "1.0.0" |}.

(** The class [VoidGuardService]: it owns one engine. *)
Record VoidGuardService : Type := mkService {
  safetyEngine : Engine
}.

Definition VoidGuardService_constructor (cfg : ConfigArg) (env : ProcessEnv)
  : VoidGuardService :=
  {| safetyEngine := constructor cfg env |}.

(** [validateAISystem(aiSystem, options = {})] *)
Definition validateAISystem (svc : VoidGuardService) (fresh : Fresh)
  (aiSystem options : JsValue)
  : Completion (ValidationResult * VoidGuardService) :=
  let options := default_parameter options (JObj []) in
  out <- validateSafety (safetyEngine svc) fresh aiSystem options ;;
  ret (fst out, {| safetyEngine := snd out |}).

Definition getHealth (svc : VoidGuardService) (now : string) : HealthStatus :=
  getHealthStatus (safetyEngine svc) now.

Record Trends : Type := mkTrends {
  last30Days : nat;
  last7Days : nat;
  avgScoreLast30Days : float
}.

Record Summary : Type := mkSummary {
  totalValidations : nat;
  compliantSystems : nat;
  complianceRate : float;
  averageScore : float
}.

Record Dashboard : Type := mkDashboard {
  summary : Summary;
  recentValidations : list AuditEvent;
  trends : Trends
}.

Definition is_compliant (s : SafetyStatus) : bool :=
  match s with compliant => true | non_compliant => false end.

(** [arr.filter(callback)] for a callback that reads the clock: the
    [k]-th call of the callback, counted from [start], sees the reading
    [clock k]. *)
Fixpoint filter_clock {A} (clock : nat -> float) (p : float -> A -> bool)
  (start : nat) (arr : list A) : list A :=
  match arr with
  | [] => []
  | x :: rest =>
      if p (clock start) x then x :: filter_clock clock p (S start) rest
      else filter_clock clock p (S start) rest
  end.

(** [arr.reduce((sum, v) => sum + v.result.score, 0)] *)
Definition sum_scores (arr : list AuditEvent) : float :=
  fold_left (fun sum v => (sum + summary_score (audit_result v))%float)
            arr 0%float.

Section Dashboard.

(** The time value of [new Date(s)] for a string and of [new Date(n)] for
    a number ([NaN] for an invalid date), and the successive readings of
    [Date.now()] during a call. *)
Variable Date_value : string -> float.
Variable Date_of_number : float -> float.
Variable Date_now : nat -> float.

(** [new Date(v.timestamp) >= new Date(now - window)] *)
Definition within (window : float) (now : float) (v : AuditEvent) : bool :=
  (Date_of_number (now - window) <=? Date_value (audit_timestamp v))%float.

Definition calculateComplianceTrends (validations : list AuditEvent)
  : Trends :=
  let last30Days :=
    filter_clock Date_now (within (30 * 24 * 60 * 60 * 1000)%float)
                 0 validations in
  let last7Days :=
    filter_clock Date_now (within (7 * 24 * 60 * 60 * 1000)%float)
                 (List.length validations) validations in
  {| last30Days := List.length last30Days;
     last7Days := List.length last7Days;
     avgScoreLast30Days :=
       if (0 <? List.length last30Days)%nat
       then (sum_scores last30Days
             / Number_of_nat (List.length last30Days))%float
       else 0%float |}.

Definition getComplianceDashboard (svc : VoidGuardService)
  (filters : Filters) : Dashboard :=
  let auditLog := getAuditLog Date_value (safetyEngine svc) filters in
  let validations :=
    filter (fun event => String.eqb (audit_type event) "safety_validation")
           auditLog in
  let compliantSystems :=
    List.length
      (filter (fun v => is_compliant (summary_status (audit_result v)))
              validations) in
  let totalSystems := List.length validations in
  let avgScore :=
    if (0 <? totalSystems)%nat
    then (sum_scores validations / Number_of_nat totalSystems)%float
    else 0%float in
  {| summary :=
       {| totalValidations := totalSystems;
          compliantSystems := compliantSystems;
          complianceRate :=
            if (0 <? totalSystems)%nat
            then (Number_of_nat compliantSystems
                  / Number_of_nat totalSystems)%float
            else 0%float;
          averageScore := avgScore |};
     recentValidations := slice_last 10 validations;
     trends := calculateComplianceTrends validations |}.

End Dashboard.

(* ================================================================== *)
(** ** Engines in use, and the outcomes of the checks                 *)
(* ================================================================== *)

(** The engines a program can hold: a new one, or one on which
    [validateSafety] has returned. (A call that throws leaves the engine
    as it was; the queries do not change it.) *)
Inductive reachable (cfg : ConfigArg) (env : ProcessEnv) : Engine -> Prop :=
| reachable_new : reachable cfg env (constructor cfg env)
| reachable_validate (eng eng' : Engine) (fresh : Fresh)
    (aiSystem context : JsValue) (r : ValidationResult) :
    reachable cfg env eng ->
    validateSafety eng fresh aiSystem context = Normal (r, eng') ->
    reachable cfg env eng'.

(** An audit entry as [validateSafety] writes them: of type
    ['safety_validation'], its recorded status being the verdict of its
    recorded score under threshold [t]. *)
Definition validation_entry (t : float) (e : AuditEvent) : Prop :=
  audit_type e = "safety_validation"
  /\ summary_status (audit_result e)
     = (if (t <=? summary_score (audit_result e))%float
        then compliant else non_compliant).

(** The entry [validateSafety] appends for result [r]. *)
Definition entry_of (fresh : Fresh) (r : ValidationResult) : AuditEvent :=
  {| audit_type := "safety_validation";
     audit_validationId := validationId r;
     audit_result :=
       {| summary_status := safetyStatus r;
          summary_score := complianceScore r;
          summary_riskLevel := level (riskAssessment r) |};
     audit_id := fresh_eventId fresh;
     audit_timestamp := string_or (Some (timestamp r)) (fresh_eventNow fresh) |}.

(** A descriptor with exactly the flags of [rows] that [missing] does not
    mark: a plain flag is [true], a list flag a one-element array, a
    structured flag an object with its sub-flag [true]. *)
Definition flag_value (k : FlagKind) : JsValue :=
  match k with
  | Plain => JBool true
  | NonEmpty => JArr [ JBool true ]
  | Enabled sub => JObj [ (sub, JBool true) ]
  end.

Fixpoint flag_props (rows : list Row) (missing : list bool)
  : list (string * JsValue) :=
  match rows, missing with
  | r :: rows, b :: missing =>
      if b then flag_props rows missing
      else (flag r, flag_value (kind r)) :: flag_props rows missing
  | _, _ => []
  end.

Definition three_flags : list (list bool) :=
  [ [false; false; false]; [false; false; true]; [false; true; false];
    [false; true; true]; [true; false; false]; [true; false; true];
    [true; true; false]; [true; true; true] ].

(** The results of check [f] of category [c] on the eight descriptors
    that have, or miss, each of the three flags it reads. *)
Definition outcomes (c : Category)
  (f : JsValue -> Completion CategoryResult) : list CategoryResult :=
  flat_map (fun missing =>
              match f (JObj (flag_props (table c) missing)) with
              | Normal r => [r]
              | Throw _ => []
              end) three_flags.

(** [P] holds of every [safetyChecks] object made of one outcome per
    category. *)
Definition all_outcomes (P : SafetyChecks -> bool) : bool :=
  let o1 := outcomes ethicalGuidelines checkEthicalGuidelines in
  let o2 := outcomes dataPrivacy checkDataPrivacy in
  let o3 := outcomes bias checkBias in
  let o4 := outcomes transparency checkTransparency in
  let o5 := outcomes humanControl checkHumanControl in
  let o6 := outcomes robustness checkRobustness in
  let o7 := outcomes accountability checkAccountability in
  forallb (fun r1 => forallb (fun r2 => forallb (fun r3 =>
  forallb (fun r4 => forallb (fun r5 => forallb (fun r6 =>
  forallb (fun r7 =>
    P [ (ethicalGuidelines, r1); (dataPrivacy, r2); (bias, r3);
        (transparency, r4); (humanControl, r5); (robustness, r6);
        (accountability, r7) ]) o7) o6) o5) o4) o3) o2) o1.

Definition no_issue (sc : SafetyChecks) : bool :=
  forallb (fun e => match checks (snd e) with [] => true | _ => false end) sc.

Definition not_high (l : RiskLevel) : bool :=
  match l with risk_high => false | _ => true end.

(** How the compliance score and the risk assessment of one
    [safetyChecks] object go together. *)
Definition score_and_risk_agree (sc : SafetyChecks) : bool :=
  let s := calculateComplianceScore sc in
  let risk := assessRisk JUndefined sc in
  (0.3018 <=? s)%float && (s <=? 1)%float && (0 <=? s)%float
  && (warnings risk <=? 11)%nat
  && Bool.eqb (no_issue sc) (1 <=? s)%float
  && implb (0.95 <=? s)%float
       ((criticalFailures risk <=? 1)%nat && (warnings risk <=? 4)%nat
        && not_high (level risk))
  && match level risk with
     | risk_high => (s <? 0.95)%float
     | risk_medium => true
     | risk_low => (0.74 <=? s)%float
     end.

(** How the issues of one category result go with its score and status:
    at most three issues; none exactly when the score is 1; no error
    under status pass; an error under status fail. *)
Definition issues_fit_status (r : CategoryResult) : bool :=
  (List.length (checks r) <=? 3)%nat
  && Bool.eqb (match checks r with [] => true | _ => false end)
              (1 <=? score r)%float
  && match status r with
     | status_pass => negb (existsb is_error (checks r))
     | status_warning => true
     | status_fail => existsb is_error (checks r)
     end.

Definition status_rank (s : Status) : nat :=
  match s with status_fail => 0 | status_warning => 1 | status_pass => 2 end.

(** A descriptor that lacks harm prevention only. *)
Definition no_harm_prevention : JsValue :=
  JObj (without [ "harmPrevention" ] fully_compliant_props).

(** An audit entry with a given type, timestamp and score. *)
Definition sample_entry (ty ts : string) (s : float) : AuditEvent :=
  {| audit_type := ty;
     audit_validationId := "v";
     audit_result := {| summary_status := non_compliant;
                        summary_score := s;
                        summary_riskLevel := risk_low |};
     audit_id := "e";
     audit_timestamp := ts |}.

Definition audit_engine : Engine :=
  constructor
    {| arg_complianceThreshold := None;
       arg_auditEnabled := Some true;
       arg_transparencyLevel := None |}
    {| env_complianceThreshold := nan;
       env_auditEnabled := false;
       env_transparencyLevel := None |}.

(** The engine [audit_engine] after one validation. *)
Definition validated_once : Engine :=
  match validateSafety audit_engine sample_fresh fully_compliant JUndefined
  with
  | Normal out => snd out
  | Throw _ => audit_engine
  end.
(* ================================================================== *)
(** ** Property reads and conditions on an inspectable value          *)
(* ================================================================== *)

Lemma Get_inspectable (v : JsValue) (p : string) :
  inspectable v = true -> Get v p = Normal (read v p).
Proof.
  destruct v; simpl; intros H; try discriminate H; reflexivity.
Qed.

Lemma truthy_inspectable (v : JsValue) :
  ToBoolean v = true -> inspectable v = true.
Proof.
  destruct v; simpl; intros H; try discriminate H; reflexivity.
Qed.

(** [!d.f] *)
Lemma cond_plain (d : JsValue) (f : string) :
  inspectable d = true ->
  js_not (d @. f) = Normal (absent d f).
Proof.
  intros H. unfold js_not. rewrite (Get_inspectable d f H). reflexivity.
Qed.

(** [!d.f || !d.f.sub] *)
Lemma cond_enabled (d : JsValue) (f sub : string) :
  inspectable d = true ->
  js_or (js_not (d @. f)) (js_not (d @. f @@. sub))
  = Normal (absent d f || absent (read d f) sub).
Proof.
  intros H. unfold js_or, js_not, absent.
  rewrite (Get_inspectable d f H). simpl.
  destruct (ToBoolean (read d f)) eqn:T; simpl; [ | reflexivity ].
  rewrite (Get_inspectable _ sub (truthy_inspectable _ T)). reflexivity.
Qed.

(** [!d.f || d.f.length === 0] *)
Lemma cond_nonempty (d : JsValue) (f : string) :
  inspectable d = true ->
  js_or (js_not (d @. f))
        (len <- d @. f @@. "length" ;; ret (strictEqZero len))
  = Normal (absent d f || strictEqZero (read (read d f) "length")).
Proof.
  intros H. unfold js_or, js_not, absent.
  rewrite (Get_inspectable d f H). simpl.
  destruct (ToBoolean (read d f)) eqn:T; simpl; [ | reflexivity ].
  rewrite (Get_inspectable _ "length" (truthy_inspectable _ T)). reflexivity.
Qed.

Lemma deduct_Normal (c : bool) (i : Issue) (factor : float)
  (st : list Issue * float) :
  deduct (Normal c) i factor st
  = Normal (if c then (push (fst st) i, (snd st * factor)%float) else st).
Proof. reflexivity. Qed.

Ltac rewrite_conds H :=
  repeat first
    [ rewrite (cond_enabled _ _ _ H)
    | rewrite (cond_nonempty _ _ H)
    | rewrite (cond_plain _ _ H) ].

Ltac split_flags :=
  repeat match goal with
    | |- context [absent ?d ?f] =>
        let b := fresh "b" in generalize (absent d f); intros b
    | |- context [strictEqZero ?v] =>
        let b := fresh "b" in generalize (strictEqZero v); intros b
    end;
  repeat match goal with b : bool |- _ => destruct b end.

Lemma bodies_total (d : JsValue) :
  inspectable d = true ->
  forall c f, In (c, f) category_bodies ->
  exists st, f d = Normal st /\ body_matches d c st.
Proof.
  intros H c f Hin.
  simpl in Hin.
  repeat (destruct Hin as [Hin | Hin];
          [ inversion Hin; subst; clear Hin | ]);
    try contradiction;
    match goal with |- exists st, ?body d = _ /\ _ => unfold body end;
    cbv zeta; rewrite_conds H; rewrite !deduct_Normal;
    unfold body_matches, deductions, table, deficient; cbn [filter kind flag];
    split_flags;
    (eexists; split; [ reflexivity | split; reflexivity ]).
Qed.

(** Each check is its body followed by the [return] statement. *)
Lemma check_is_body_then_return (c : Category)
  (f : JsValue -> Completion CategoryResult) :
  In (c, f) category_checks ->
  exists body, In (c, body) category_bodies /\
    forall d, f d =
      (st <- body d ;;
       ret {| score := Math_max (snd st) 0;
              checks := fst st;
              status := if (0.8 <=? snd st)%float then status_pass
                        else if (0.6 <=? snd st)%float then status_warning
                        else status_fail |}).
Proof.
  intros Hin. simpl in Hin.
  repeat (destruct Hin as [Hin | Hin];
          [ inversion Hin; subst; clear Hin | ]);
    try contradiction;
    (eexists; split;
     [ simpl; eauto 10
     | intros d;
       match goal with |- ?chk d = _ => unfold chk end;
       match goal with |- bind ?m _ = _ => destruct m as [[? ?]|] end;
       reflexivity ]).
Qed.

(** The flags a row of the table looks at, as booleans. *)
Ltac split_deficient :=
  unfold deductions, table; cbn [filter];
  repeat match goal with
    | |- context [deficient ?d ?r] =>
        let b := fresh "b" in generalize (deficient d r); intros b
    end;
  repeat match goal with b : bool |- _ => destruct b end.

(** The running score of a fixed category is one of eight products, all
    between 0.135 and 1; clamping such a value at 0 returns it. *)
Lemma running_score_bounds (d : JsValue) (c : Category) :
  let s := running_score (deductions d c) in
  (0 <? s)%float = true
  /\ (s <=? 1)%float = true
  /\ (0.135 <=? s)%float = true
  /\ Math_max s 0 = s.
Proof.
  destruct c; split_deficient; vm_compute; repeat split; reflexivity.
Qed.

(* ================================================================== *)
(** ** The category checks                                            *)
(* ================================================================== *)

(** C1. For every inspectable descriptor, each of the seven category
    checks returns a result that follows the table of sub-conditions: the
    score starts at 1.0 and is multiplied, in table order, by the penalty
    of each row whose flag is absent or disabled; one issue of the row's
    severity is appended per deduction; the returned score is the running
    score clamped at 0; the status is pass from 0.8, warning from 0.6 and
    fail below. Every penalty of the table lies strictly between 0 and
    1. *)
Theorem category_checks_follow_table (d : JsValue) :
  inspectable d = true ->
  forall c f, In (c, f) category_checks ->
  exists r, f d = Normal r
    /\ map type (checks r) = map severity (deductions d c)
    /\ List.length (checks r) = List.length (deductions d c)
    /\ score r = Math_max (running_score (deductions d c)) 0
    /\ status r = status_of (running_score (deductions d c))
    /\ status r = status_of (score r)
    /\ Forall (fun row => (0 <? penalty row)%float = true
                          /\ (penalty row <? 1)%float = true) (table c).
Proof.
  intros H c f Hin.
  destruct (check_is_body_then_return c f Hin) as (body & Hb & Hf).
  destruct (bodies_total d H c body Hb) as (st & Hst & Hty & Hsc).
  destruct (running_score_bounds d c) as (_ & _ & _ & Hmax).
  exists {| score := Math_max (snd st) 0;
            checks := fst st;
            status := status_of (snd st) |}.
  split; [ rewrite Hf, Hst; reflexivity | ].
  cbn [score checks status].
  split; [ exact Hty | ].
  split.
  { rewrite <- (length_map type), Hty. apply length_map. }
  rewrite Hsc.
  split; [ reflexivity | ].
  split; [ reflexivity | ].
  split; [ rewrite Hmax; reflexivity | ].
  destruct c; unfold table;
    repeat (constructor; [ split; reflexivity | ]); constructor.
Qed.

Lemma category_checks_follow_table_witness :
  exists r, checkHumanControl oversight_only = Normal r
    /\ map type (checks r) = map severity (deductions oversight_only humanControl)
    /\ List.length (checks r)
       = List.length (deductions oversight_only humanControl)
    /\ score r
       = Math_max (running_score (deductions oversight_only humanControl)) 0
    /\ status r = status_of (running_score (deductions oversight_only humanControl))
    /\ status r = status_of (score r)
    /\ Forall (fun row => (0 <? penalty row)%float = true
                          /\ (penalty row <? 1)%float = true)
              (table humanControl).
Proof.
  apply (category_checks_follow_table oversight_only eq_refl
           humanControl checkHumanControl).
  simpl. do 4 right. left. reflexivity.
Defined.

(** C9. For every inspectable descriptor the running score of each of the
    seven checks is strictly positive, at most 1 and at least 0.135, so
    that clamping it at 0 leaves it unchanged and the status derived from
    the clamped score is the status derived from the unclamped one; the
    returned score of each check is therefore in (0, 1]. The value
    0.3 * 0.5 * 0.9 = 0.135 is reached by the human-control check. *)
Theorem category_scores_strictly_positive (d : JsValue) :
  inspectable d = true ->
  (forall c body, In (c, body) category_bodies ->
     exists issues s, body d = Normal (issues, s)
       /\ (0 <? s)%float = true
       /\ (s <=? 1)%float = true
       /\ (0.135 <=? s)%float = true
       /\ Math_max s 0 = s
       /\ status_of (Math_max s 0) = status_of s)
  /\ (forall c f, In (c, f) category_checks ->
     exists r, f d = Normal r
       /\ (0 <? score r)%float = true
       /\ (score r <=? 1)%float = true
       /\ (0.135 <=? score r)%float = true)
  /\ (exists issues,
        checkHumanControl_body (JObj []) = Normal (issues, 0.135%float)
        /\ (1.0 * 0.3 * 0.5 * 0.9 = 0.135)%float).
Proof.
  intros H. split; [ | split ].
  - intros c body Hb.
    destruct (bodies_total d H c body Hb) as ([issues s] & Hst & _ & Hsc).
    cbn [snd] in Hsc.
    destruct (running_score_bounds d c) as (Hpos & Hle & Hmin & Hmax).
    rewrite <- Hsc in Hpos, Hle, Hmin, Hmax.
    exists issues, s. rewrite Hmax. repeat split; assumption.
  - intros c f Hin.
    destruct (check_is_body_then_return c f Hin) as (body & Hb & Hf).
    destruct (bodies_total d H c body Hb) as (st & Hst & _ & Hsc).
    destruct (running_score_bounds d c) as (Hpos & Hle & Hmin & Hmax).
    rewrite <- Hsc in Hpos, Hle, Hmin, Hmax.
    eexists. split; [ rewrite Hf, Hst; reflexivity | ].
    cbn [score]. rewrite Hmax. repeat split; assumption.
  - eexists. split; reflexivity.
Qed.

Lemma category_scores_strictly_positive_witness :
  (forall c body, In (c, body) category_bodies ->
     exists issues s, body oversight_only = Normal (issues, s)
       /\ (0 <? s)%float = true
       /\ (s <=? 1)%float = true
       /\ (0.135 <=? s)%float = true
       /\ Math_max s 0 = s
       /\ status_of (Math_max s 0) = status_of s)
  /\ (forall c f, In (c, f) category_checks ->
     exists r, f oversight_only = Normal r
       /\ (0 <? score r)%float = true
       /\ (score r <=? 1)%float = true
       /\ (0.135 <=? score r)%float = true)
  /\ (exists issues,
        checkHumanControl_body (JObj []) = Normal (issues, 0.135%float)
        /\ (1.0 * 0.3 * 0.5 * 0.9 = 0.135)%float).
Proof.
  apply (category_scores_strictly_positive oversight_only).
  reflexivity.
Defined.

(* ================================================================== *)
(** ** The compliance score                                           *)
(* ================================================================== *)

(** The loop of [calculateComplianceScore] computes both sums over the
    entries that are present. *)
Lemma fold_accumulate (sc : SafetyChecks) (ws : list (Category * float)) :
  forall totalScore totalWeight,
  fold_left (accumulate sc) ws (totalScore, totalWeight)
  = (float_sum_from totalScore
       (map (fun '(r, w) => (score r * w)%float) (present_in ws sc)),
     float_sum_from totalWeight (map snd (present_in ws sc))).
Proof.
  induction ws as [ | [c w] ws IH ]; intros ts tw.
  - reflexivity.
  - cbn [fold_left accumulate present_in flat_map].
    destruct (safetyChecks_get c sc) as [r | ]; cbn [app map snd];
      rewrite IH; reflexivity.
Qed.

Lemma calculateComplianceScore_unfold (sc : SafetyChecks) :
  calculateComplianceScore sc
  = if (0 <? weight_sum sc)%float then weighted_mean sc else 0%float.
Proof.
  unfold calculateComplianceScore. rewrite fold_accumulate. reflexivity.
Qed.

Ltac split_present sc :=
  unfold weight_sum, present, present_in, weights; cbn [flat_map];
  destruct (safetyChecks_get ethicalGuidelines sc) eqn:?E;
  destruct (safetyChecks_get dataPrivacy sc) eqn:?E;
  destruct (safetyChecks_get bias sc) eqn:?E;
  destruct (safetyChecks_get transparency sc) eqn:?E;
  destruct (safetyChecks_get humanControl sc) eqn:?E;
  destruct (safetyChecks_get robustness sc) eqn:?E;
  destruct (safetyChecks_get accountability sc) eqn:?E.

(** The weights being positive, the normalizer is positive as soon as
    one of the seven categories is present. *)
Lemma weight_sum_positive (sc : SafetyChecks) :
  (exists c, In c fixed_categories /\ safetyChecks_get c sc <> None) ->
  (0 <? weight_sum sc)%float = true.
Proof.
  intros (c & Hc & Hne).
  split_present sc; try reflexivity.
  exfalso. simpl in Hc.
  repeat (destruct Hc as [Hc | Hc]; [ subst c; congruence | ]).
  exact Hc.
Qed.

(** C2. The compliance score is the weighted mean of the scores of the
    categories present, with the fixed weights 0.20, 0.15, 0.15, 0.15,
    0.20, 0.10, 0.05, normalized by the sum of the weights of the
    categories present; with all seven present the normalizer is 1.0;
    with none present the score is 0. *)
Theorem compliance_score_is_weighted_mean (sc : SafetyChecks) :
  weights = [ (ethicalGuidelines, 0.2%float); (dataPrivacy, 0.15%float);
              (bias, 0.15%float); (transparency, 0.15%float);
              (humanControl, 0.2%float); (robustness, 0.1%float);
              (accountability, 0.05%float) ]
  /\ calculateComplianceScore sc
     = (if (0 <? weight_sum sc)%float then weighted_mean sc else 0%float)
  /\ ((exists c, In c fixed_categories /\ safetyChecks_get c sc <> None) ->
      calculateComplianceScore sc = weighted_mean sc)
  /\ ((forall c, In c fixed_categories -> safetyChecks_get c sc <> None) ->
      weight_sum sc = 1%float)
  /\ ((forall c, In c fixed_categories -> safetyChecks_get c sc = None) ->
      calculateComplianceScore sc = 0%float).
Proof.
  split; [ reflexivity | ].
  split; [ apply calculateComplianceScore_unfold | ].
  split; [ | split ].
  - intros Hex. rewrite calculateComplianceScore_unfold.
    rewrite (weight_sum_positive sc Hex). reflexivity.
  - intros Hall.
    unfold weight_sum, present, present_in, weights; cbn [flat_map].
    repeat match goal with
      | |- context [safetyChecks_get ?c sc] =>
          let E := fresh "E" in
          destruct (safetyChecks_get c sc) eqn:E;
          [ | exfalso; apply (Hall c); [ simpl; tauto | exact E ] ]
      end.
    reflexivity.
  - intros Hnone. rewrite calculateComplianceScore_unfold.
    assert (H1 := Hnone ethicalGuidelines). assert (H2 := Hnone dataPrivacy).
    assert (H3 := Hnone bias). assert (H4 := Hnone transparency).
    assert (H5 := Hnone humanControl). assert (H6 := Hnone robustness).
    assert (H7 := Hnone accountability).
    unfold fixed_categories in *. simpl in H1, H2, H3, H4, H5, H6, H7.
    unfold weight_sum, present, present_in, weights; cbn [flat_map].
    rewrite H1, H2, H3, H4, H5, H6, H7 by tauto. reflexivity.
Qed.

(** With ethics at 0.5 and robustness at 1 only, the score is
    (0.5 * 0.2 + 1 * 0.1) / (0.2 + 0.1). *)
Lemma compliance_score_is_weighted_mean_witness :
  calculateComplianceScore two_categories
  = ((0 + 0.5 * 0.2 + 1 * 0.1) / (0 + 0.2 + 0.1))%float
  /\ calculateComplianceScore two_categories = weighted_mean two_categories.
Proof.
  split; [ reflexivity | ].
  apply (compliance_score_is_weighted_mean two_categories).
  exists robustness. split; [ simpl; tauto | discriminate ].
Defined.

(* ================================================================== *)
(** ** The risk assessment                                            *)
(* ================================================================== *)

Lemma counts_filter {A : Type} (p : A -> bool) (P : A -> Prop) :
  (forall x, p x = true <-> P x) ->
  forall l, counts P l (List.length (filter p l)).
Proof.
  intros Hp l. induction l as [ | x l IH ]; cbn [filter].
  - constructor.
  - destruct (p x) eqn:E.
    + cbn [List.length]. apply counts_yes; [ apply Hp; exact E | exact IH ].
    + apply counts_no; [ | exact IH ].
      intros HP. apply Hp in HP. congruence.
Qed.

Lemma counts_deterministic {A : Type} (P : A -> Prop) (l : list A) :
  forall n m, counts P l n -> counts P l m -> n = m.
Proof.
  induction l as [ | x l IH ]; intros n m Hn Hm;
    inversion Hn; subst; inversion Hm; subst;
    try reflexivity; try contradiction.
  - f_equal. eauto.
  - eauto.
Qed.

Lemma is_error_iff (i : Issue) : is_error i = true <-> type i = type_error.
Proof. unfold is_error. destruct (type i); split; congruence. Qed.

Lemma is_warning_iff (i : Issue) :
  is_warning i = true <-> type i = type_warning.
Proof. unfold is_warning. destruct (type i); split; congruence. Qed.

Lemma is_fail_iff (r : CategoryResult) :
  is_fail r = true <-> status r = status_fail.
Proof. unfold is_fail. destruct (status r); split; congruence. Qed.

Lemma critical_iff (r : CategoryResult) :
  is_fail r && existsb is_error (checks r) = true <-> critical r.
Proof.
  unfold critical.
  rewrite andb_true_iff, is_fail_iff, existsb_exists.
  split; intros (Hf & i & Hin & Hi); (split; [ exact Hf | ]);
    exists i; (split; [ exact Hin | ]); apply is_error_iff; exact Hi.
Qed.

(** The [reduce] of [assessRisk] counts the warnings of all the issues. *)
Lemma reduce_warnings (l : list CategoryResult) :
  forall total,
  fold_left
    (fun total check => total + List.length (filter is_warning (checks check)))
    l total
  = total + List.length (filter is_warning (flat_map checks l)).
Proof.
  induction l as [ | r l IH ]; intros total; cbn [fold_left flat_map].
  - cbn. lia.
  - rewrite IH, filter_app, length_app. lia.
Qed.

(** C3. [criticalFailures] is the number of categories that have status
    fail and hold at least one error issue; [warnings] is the number of
    warning issues over all categories; the level is high when
    criticalFailures > 2 or warnings > 5, otherwise medium when
    criticalFailures > 0 or warnings > 2, otherwise low. *)
Theorem risk_assessment_counts (aiSystem : JsValue) (sc : SafetyChecks) :
  let risk := assessRisk aiSystem sc in
  counts critical (Object_values sc) (criticalFailures risk)
  /\ counts (fun i => type i = type_warning) (all_issues sc) (warnings risk)
  /\ (level risk = risk_high <->
      criticalFailures risk > 2 \/ warnings risk > 5)
  /\ (level risk = risk_medium <->
      ~ (criticalFailures risk > 2 \/ warnings risk > 5)
      /\ (criticalFailures risk > 0 \/ warnings risk > 2))
  /\ (level risk = risk_low <->
      ~ (criticalFailures risk > 2 \/ warnings risk > 5)
      /\ ~ (criticalFailures risk > 0 \/ warnings risk > 2)).
Proof.
  cbv zeta. unfold assessRisk. cbn [criticalFailures warnings level].
  split; [ apply counts_filter; exact critical_iff | ].
  split.
  { rewrite reduce_warnings. cbn [Nat.add].
    apply counts_filter. exact is_warning_iff. }
  set (cf := List.length _). set (w := fold_left _ _ _).
  destruct (Nat.ltb_spec 2 cf); destruct (Nat.ltb_spec 5 w);
    destruct (Nat.ltb_spec 0 cf); destruct (Nat.ltb_spec 2 w);
    cbn [orb]; repeat split; intros; try discriminate; try lia;
    try (exfalso; lia).
Qed.

(** One critical failure (bias) and three warnings give level medium;
    the error of the non-failing transparency category is not counted. *)
Lemma risk_assessment_counts_witness :
  level (assessRisk JNull mixed_results) = risk_medium
  /\ criticalFailures (assessRisk JNull mixed_results) = 1
  /\ warnings (assessRisk JNull mixed_results) = 3.
Proof.
  split; [ | split; reflexivity ].
  apply (proj1 (proj2 (proj2 (proj2
           (risk_assessment_counts JNull mixed_results))))).
  cbn. lia.
Defined.

(* ================================================================== *)
(** ** The recommendations                                            *)
(* ================================================================== *)

Lemma fold_push_map {A B : Type} (g : A -> B) (l : list A) :
  forall acc, fold_left (fun recs x => push recs (g x)) l acc = acc ++ map g l.
Proof.
  induction l as [ | x l IH ]; intros acc; cbn [fold_left map].
  - symmetry. apply app_nil_r.
  - rewrite IH. unfold push. rewrite <- app_assoc. reflexivity.
Qed.

Lemma fold_recommendCritical (sc : SafetyChecks) :
  forall acc, fold_left recommendCritical sc acc = acc ++ pass1 sc.
Proof.
  induction sc as [ | [c r] sc IH ]; intros acc;
    cbn [fold_left pass1 flat_map].
  - symmetry. apply app_nil_r.
  - rewrite IH. unfold recommendCritical.
    destruct (is_fail r).
    + rewrite (fold_push_map (recommend priority_high c)).
      rewrite <- app_assoc. reflexivity.
    + reflexivity.
Qed.

Lemma fold_recommendWarnings (sc : SafetyChecks) :
  forall acc, fold_left recommendWarnings sc acc = acc ++ pass2 sc.
Proof.
  induction sc as [ | [c r] sc IH ]; intros acc;
    cbn [fold_left pass2 flat_map].
  - symmetry. apply app_nil_r.
  - rewrite IH. unfold recommendWarnings.
    rewrite (fold_push_map (recommend priority_medium c)).
    rewrite <- app_assoc. reflexivity.
Qed.

Lemma generateRecommendations_passes (sc : SafetyChecks)
  (risk : RiskAssessment) :
  generateRecommendations sc risk = pass1 sc ++ pass2 sc.
Proof.
  unfold generateRecommendations.
  rewrite fold_recommendCritical, fold_recommendWarnings. reflexivity.
Qed.

Lemma In_pass1 (sc : SafetyChecks) (r : Recommendation) :
  In r (pass1 sc) <->
  exists c res i, In (c, res) sc /\ status res = status_fail
                  /\ In i (checks res) /\ type i = type_error
                  /\ r = recommend priority_high c i.
Proof.
  unfold pass1. rewrite in_flat_map. split.
  - intros ([c res] & Hin & Hr).
    destruct (is_fail res) eqn:Hf; [ | contradiction ].
    apply in_map_iff in Hr. destruct Hr as (i & <- & Hi).
    apply filter_In in Hi. destruct Hi as (Hi & He).
    exists c, res, i. repeat split; try assumption.
    + apply is_fail_iff; exact Hf.
    + apply is_error_iff; exact He.
  - intros (c & res & i & Hin & Hf & Hi & He & ->).
    exists (c, res). split; [ exact Hin | ].
    apply is_fail_iff in Hf. rewrite Hf.
    apply in_map. apply filter_In. split; [ exact Hi | ].
    apply is_error_iff; exact He.
Qed.

Lemma In_pass2 (sc : SafetyChecks) (r : Recommendation) :
  In r (pass2 sc) <->
  exists c res i, In (c, res) sc /\ In i (checks res)
                  /\ type i = type_warning
                  /\ r = recommend priority_medium c i.
Proof.
  unfold pass2. rewrite in_flat_map. split.
  - intros ([c res] & Hin & Hr).
    apply in_map_iff in Hr. destruct Hr as (i & <- & Hi).
    apply filter_In in Hi. destruct Hi as (Hi & Hw).
    exists c, res, i. repeat split; try assumption.
    apply is_warning_iff; exact Hw.
  - intros (c & res & i & Hin & Hi & Hw & ->).
    exists (c, res). split; [ exact Hin | ].
    apply in_map. apply filter_In. split; [ exact Hi | ].
    apply is_warning_iff; exact Hw.
Qed.

Lemma pass1_high (sc : SafetyChecks) :
  Forall (fun r => priority r = priority_high) (pass1 sc).
Proof.
  apply Forall_forall. intros r Hr. apply In_pass1 in Hr.
  destruct Hr as (c & res & i & _ & _ & _ & _ & ->). reflexivity.
Qed.

Lemma pass2_medium (sc : SafetyChecks) :
  Forall (fun r => priority r = priority_medium) (pass2 sc).
Proof.
  apply Forall_forall. intros r Hr. apply In_pass2 in Hr.
  destruct Hr as (c & res & i & _ & _ & _ & ->). reflexivity.
Qed.

(** In a list made of high-priority items followed by medium-priority
    ones, every high item stands before every medium item. *)
Lemma high_before_medium (hs ms : list Recommendation) :
  Forall (fun r => priority r = priority_high) hs ->
  Forall (fun r => priority r = priority_medium) ms ->
  forall n m rn rm,
  nth_error (hs ++ ms) n = Some rn -> nth_error (hs ++ ms) m = Some rm ->
  priority rn = priority_high -> priority rm = priority_medium -> n < m.
Proof.
  intros Hh Hm n m rn rm En Em Pn Pm.
  rewrite Forall_forall in Hh, Hm.
  destruct (Nat.lt_ge_cases n (List.length hs)) as [Hn | Hn].
  - destruct (Nat.lt_ge_cases m (List.length hs)) as [Hlt | Hge]; [ | lia ].
    rewrite nth_error_app1 in Em by exact Hlt.
    apply nth_error_In in Em. apply Hh in Em. congruence.
  - rewrite nth_error_app2 in En by exact Hn.
    apply nth_error_In in En. apply Hm in En. congruence.
Qed.

(** The pass over failing categories ignores a category that did not
    fail; the pass over warnings ignores error issues. *)
Lemma pass1_skips_non_failing (sc1 sc2 : SafetyChecks) (c : Category)
  (res res' : CategoryResult) :
  status res <> status_fail -> status res' = status res ->
  pass1 (sc1 ++ (c, res) :: sc2) = pass1 (sc1 ++ (c, res') :: sc2).
Proof.
  intros Hnf Hst. unfold pass1. rewrite !flat_map_app. cbn [flat_map].
  assert (Hf : is_fail res = false).
  { destruct (is_fail res) eqn:E; [ | reflexivity ].
    apply is_fail_iff in E. contradiction. }
  assert (Hf' : is_fail res' = false).
  { unfold is_fail in *. rewrite Hst. exact Hf. }
  rewrite Hf, Hf'. reflexivity.
Qed.

Lemma filter_warning_idem (l : list Issue) :
  filter is_warning (filter is_warning l) = filter is_warning l.
Proof.
  induction l as [ | i l IH ]; cbn [filter]; [ reflexivity | ].
  destruct (is_warning i) eqn:E; cbn [filter]; [ rewrite E, IH | ];
    auto.
Qed.

(** C4. The recommendations are those of pass 1 (one high-priority
    recommendation per error issue of each failing category) followed by
    those of pass 2 (one medium-priority recommendation per warning issue
    of every category): a recommendation has priority high exactly when
    it comes from an error issue of a failing category, every
    high-priority recommendation stands before every medium-priority one,
    and the error issues of a category that did not fail yield no
    recommendation. For a descriptor failing bias on an error and with a
    lone warning in robustness, the bias recommendation comes first. *)
Theorem recommendations_two_passes (sc : SafetyChecks)
  (risk : RiskAssessment) :
  let recs := generateRecommendations sc risk in
  recs = pass1 sc ++ pass2 sc
  /\ (forall r, In r (pass1 sc) <->
        exists c res i, In (c, res) sc /\ status res = status_fail
                        /\ In i (checks res) /\ type i = type_error
                        /\ r = recommend priority_high c i)
  /\ (forall r, In r (pass2 sc) <->
        exists c res i, In (c, res) sc /\ In i (checks res)
                        /\ type i = type_warning
                        /\ r = recommend priority_medium c i)
  /\ (forall r, In r recs ->
        (priority r = priority_high <->
         exists c res i, In (c, res) sc /\ status res = status_fail
                         /\ In i (checks res) /\ type i = type_error
                         /\ r = recommend priority_high c i))
  /\ (forall n m rn rm,
        nth_error recs n = Some rn -> nth_error recs m = Some rm ->
        priority rn = priority_high -> priority rm = priority_medium ->
        n < m)
  /\ (forall sc1 sc2 c res,
        sc = sc1 ++ (c, res) :: sc2 -> status res <> status_fail ->
        recs = generateRecommendations (sc1 ++ (c, drop_errors res) :: sc2)
                 risk)
  /\ (exists checks,
        performSafetyChecks bias_failing (JObj []) = Normal checks
        /\ generateRecommendations checks (assessRisk bias_failing checks)
           = [ {| priority := priority_high; category := bias;
                  issue := "Bias testing not conducted";
                  action := "Review and address this safety concern" |};
               {| priority := priority_medium; category := robustness;
                  issue := "Performance monitoring not implemented";
                  action := "Review and address this safety concern" |} ]).
Proof.
  cbv zeta. rewrite generateRecommendations_passes.
  split; [ reflexivity | ].
  split; [ apply In_pass1 | ].
  split; [ apply In_pass2 | ].
  split.
  { intros r Hr. rewrite <- In_pass1. split.
    - intros Hp. apply in_app_or in Hr. destruct Hr as [Hr | Hr].
      + exact Hr.
      + pose proof (pass2_medium sc) as Hm. rewrite Forall_forall in Hm.
        apply Hm in Hr. congruence.
    - intros Hr1. pose proof (pass1_high sc) as Hh.
      rewrite Forall_forall in Hh. apply Hh. exact Hr1. }
  split.
  { apply high_before_medium; [ apply pass1_high | apply pass2_medium ]. }
  split.
  { intros sc1 sc2 c res -> Hnf.
    rewrite generateRecommendations_passes.
    rewrite (pass1_skips_non_failing sc1 sc2 c res (drop_errors res) Hnf eq_refl).
    f_equal. unfold pass2. rewrite !flat_map_app. cbn [flat_map].
    unfold drop_errors at 1. cbn [checks].
    rewrite filter_warning_idem. reflexivity. }
  eexists. split; reflexivity.
Qed.

(** The first recommendation for [mixed_results] has priority high: it
    comes from the error issue of the failing bias category. *)
Lemma recommendations_two_passes_witness :
  generateRecommendations mixed_results (assessRisk JNull mixed_results)
  = [ recommend priority_high bias
        (mkIssue type_error "Bias testing not conducted");
      recommend priority_medium bias
        (mkIssue type_warning "Fairness metrics not defined");
      recommend priority_medium bias
        (mkIssue type_warning "Dataset diversity not validated");
      recommend priority_medium robustness
        (mkIssue type_warning "Adversarial testing not conducted") ]
  /\ exists c res i,
       In (c, res) mixed_results /\ status res = status_fail
       /\ In i (checks res) /\ type i = type_error
       /\ recommend priority_high bias
            (mkIssue type_error "Bias testing not conducted")
          = recommend priority_high c i.
Proof.
  split; [ reflexivity | ].
  apply (proj1 (proj2 (proj2 (proj2
           (recommendations_two_passes mixed_results
              (assessRisk JNull mixed_results)))))).
  - left. reflexivity.
  - reflexivity.
Defined.

(* ================================================================== *)
(** ** The audit log                                                  *)
(* ================================================================== *)

Lemma slice_last_short {A : Type} (k : nat) (l : list A) :
  List.length l <= k -> slice_last k l = l.
Proof.
  intros H. unfold slice_last.
  replace (List.length l - k) with 0 by lia. reflexivity.
Qed.

Lemma slice_last_length {A : Type} (k : nat) (l : list A) :
  List.length (slice_last k l) = Nat.min k (List.length l).
Proof. unfold slice_last. rewrite length_skipn. lia. Qed.

Lemma slice_last_is_last_n {A : Type} (k : nat) (l : list A) :
  slice_last k l = last_n k l.
Proof.
  unfold slice_last, last_n. rewrite firstn_rev, rev_involutive. reflexivity.
Qed.

(** Slicing early does not change what a later slice keeps. *)
Lemma slice_last_app {A : Type} (k : nat) (l m : list A) :
  slice_last k (slice_last k l ++ m) = slice_last k (l ++ m).
Proof.
  destruct (Nat.le_gt_cases (List.length l) k) as [Hle | Hgt].
  - rewrite (slice_last_short k l Hle). reflexivity.
  - unfold slice_last.
    set (j := List.length l - k).
    assert (Hlen : List.length (skipn j l ++ m) - k = List.length m)
      by (rewrite length_app, length_skipn; unfold j; lia).
    rewrite Hlen.
    replace (List.length (l ++ m) - k) with (List.length m + j)
      by (rewrite length_app; unfold j; lia).
    rewrite <- skipn_skipn, (skipn_app j l m).
    replace (j - List.length l) with 0 by (unfold j; lia).
    reflexivity.
Qed.

(** One append: push, then keep the last 1000. *)
Lemma logAuditEvent_log (eng : Engine) (event : Event) (uuid now : string) :
  auditLog (logAuditEvent eng event uuid now)
  = slice_last 1000 (auditLog eng ++ [stamp (event, (uuid, now))]).
Proof.
  unfold logAuditEvent, push, stamp. cbn [auditLog].
  match goal with |- context [Nat.ltb ?a ?b] =>
    destruct (Nat.ltb_spec a b) as [Hlt | Hge] end.
  - reflexivity.
  - symmetry. apply slice_last_short. exact Hge.
Qed.

Lemma logAuditEvent_bounded (eng : Engine) (event : Event)
  (uuid now : string) :
  List.length (auditLog (logAuditEvent eng event uuid now)) <= 1000.
Proof. rewrite logAuditEvent_log, slice_last_length. lia. Qed.

Lemma appendAll_log (reqs : list Append) :
  forall eng, List.length (auditLog eng) <= 1000 ->
  auditLog (appendAll eng reqs)
  = slice_last 1000 (auditLog eng ++ map stamp reqs).
Proof.
  induction reqs as [ | [event [uuid now]] reqs IH ]; intros eng Hlen.
  - cbn [appendAll fold_left map]. rewrite app_nil_r.
    symmetry. apply slice_last_short. exact Hlen.
  - cbn [appendAll fold_left map].
    change (fold_left _ reqs ?e) with (appendAll e reqs).
    rewrite IH by apply logAuditEvent_bounded.
    rewrite logAuditEvent_log, slice_last_app, <- app_assoc. reflexivity.
Qed.

Lemma getAuditLog_no_filters (Date_value : string -> float) (eng : Engine) :
  getAuditLog Date_value eng no_filters = auditLog eng.
Proof. reflexivity. Qed.

(** C5. Whatever is appended, the audit log holds at most 1000 entries;
    after any sequence of appends to a new engine it holds the last 1000
    of the appended entries (all of them when fewer), in append order:
    the oldest entries are the ones evicted. After 1500 appends a query
    without filters returns the last 1000 entries in their order. *)
Theorem audit_log_bounded_fifo (Date_value : string -> float)
  (cfg : Config) (reqs : list Append) :
  let eng := appendAll {| config := cfg; auditLog := [] |} reqs in
  (forall e event uuid now,
     List.length (auditLog (logAuditEvent e event uuid now)) <= 1000)
  /\ List.length (auditLog eng) = Nat.min 1000 (List.length reqs)
  /\ auditLog eng = last_n 1000 (map stamp reqs)
  /\ (exists evicted, map stamp reqs = evicted ++ auditLog eng)
  /\ getAuditLog Date_value eng no_filters = auditLog eng
  /\ (List.length reqs = 1500 ->
      getAuditLog Date_value eng no_filters = skipn 500 (map stamp reqs)
      /\ List.length (getAuditLog Date_value eng no_filters) = 1000).
Proof.
  cbv zeta.
  assert (Hlog : auditLog (appendAll {| config := cfg; auditLog := [] |} reqs)
                 = slice_last 1000 (map stamp reqs)).
  { rewrite appendAll_log by (cbn [auditLog List.length]; lia).
    reflexivity. }
  split; [ exact logAuditEvent_bounded | ].
  split; [ rewrite Hlog, slice_last_length, length_map; reflexivity | ].
  split; [ rewrite Hlog; apply slice_last_is_last_n | ].
  split.
  { exists (firstn (List.length (map stamp reqs) - 1000) (map stamp reqs)).
    rewrite Hlog. unfold slice_last. symmetry. apply firstn_skipn. }
  split; [ apply getAuditLog_no_filters | ].
  intros H1500. rewrite getAuditLog_no_filters, Hlog.
  split.
  - unfold slice_last. rewrite length_map, H1500.
    replace (1500 - 1000) with 500 by lia. reflexivity.
  - rewrite slice_last_length, length_map, H1500. lia.
Qed.

(** After the 1500 numbered appends the log starts with entry 500 and
    ends with entry 1499. *)
Lemma audit_log_bounded_fifo_witness :
  let eng := appendAll {| config := default_config; auditLog := [] |}
               requests_1500 in
  getAuditLog (fun _ => 0%float) eng no_filters
  = skipn 500 (map stamp requests_1500)
  /\ List.length (getAuditLog (fun _ => 0%float) eng no_filters) = 1000.
Proof.
  apply (audit_log_bounded_fifo (fun _ => 0%float) default_config
           requests_1500).
  unfold requests_1500. rewrite length_map, length_seq. reflexivity.
Defined.

(* ================================================================== *)
(** ** [validateSafety]                                               *)
(* ================================================================== *)

Lemma bind_Normal {A B : Type} (m : Completion A) (k : A -> Completion B)
  (b : B) :
  bind m k = Normal b -> exists a, m = Normal a /\ k a = Normal b.
Proof.
  destruct m as [a | e]; cbn [bind]; intros H; [ | discriminate H ].
  exists a. split; [ reflexivity | exact H ].
Qed.

(** Every category check returns on an inspectable descriptor. *)
Lemma checks_total (d : JsValue) :
  inspectable d = true ->
  forall c f, In (c, f) category_checks -> exists r, f d = Normal r.
Proof.
  intros H c f Hin.
  destruct (check_is_body_then_return c f Hin) as (body & Hb & Hf).
  destruct (bodies_total d H c body Hb) as (st & Hst & _).
  eexists. rewrite Hf, Hst. reflexivity.
Qed.

(** Without a regulatory request [performSafetyChecks] returns the seven
    results in the fixed order. *)
Lemma performSafetyChecks_seven (d context : JsValue) :
  inspectable d = true -> no_regulatory context = true ->
  exists r1 r2 r3 r4 r5 r6 r7,
    checkEthicalGuidelines d = Normal r1
    /\ checkDataPrivacy d = Normal r2
    /\ checkBias d = Normal r3
    /\ checkTransparency d = Normal r4
    /\ checkHumanControl d = Normal r5
    /\ checkRobustness d = Normal r6
    /\ checkAccountability d = Normal r7
    /\ performSafetyChecks d (default_parameter context (JObj []))
       = Normal [ (ethicalGuidelines, r1); (dataPrivacy, r2); (bias, r3);
                  (transparency, r4); (humanControl, r5); (robustness, r6);
                  (accountability, r7) ].
Proof.
  intros H Hctx.
  destruct (checks_total d H ethicalGuidelines checkEthicalGuidelines)
    as (r1 & E1); [ simpl; tauto | ].
  destruct (checks_total d H dataPrivacy checkDataPrivacy)
    as (r2 & E2); [ simpl; tauto | ].
  destruct (checks_total d H bias checkBias)
    as (r3 & E3); [ simpl; tauto | ].
  destruct (checks_total d H transparency checkTransparency)
    as (r4 & E4); [ simpl; tauto | ].
  destruct (checks_total d H humanControl checkHumanControl)
    as (r5 & E5); [ simpl; tauto | ].
  destruct (checks_total d H robustness checkRobustness)
    as (r6 & E6); [ simpl; tauto | ].
  destruct (checks_total d H accountability checkAccountability)
    as (r7 & E7); [ simpl; tauto | ].
  exists r1, r2, r3, r4, r5, r6, r7.
  repeat (split; [ assumption | ]).
  unfold performSafetyChecks. rewrite E1, E2, E3, E4, E5, E6, E7.
  cbn [bind].
  assert (Hreg : exists reg,
             Get (default_parameter context (JObj [])) "regulatory"
             = Normal reg /\ ToBoolean reg = false).
  { destruct context; cbn in Hctx |- *; try discriminate Hctx;
      try (eexists; split; reflexivity);
      (eexists; split; [ reflexivity | ]; apply negb_true_iff; exact Hctx). }
  destruct Hreg as (reg & Ereg & Freg).
  rewrite Ereg. cbn [bind]. rewrite Freg. reflexivity.
Qed.

(** What a returned validation result is made of. *)
Lemma validateSafety_Normal (eng : Engine) (fresh : Fresh)
  (d context : JsValue) (r : ValidationResult) (eng' : Engine) :
  validateSafety eng fresh d context = Normal (r, eng') ->
  exists sc,
    performSafetyChecks d (default_parameter context (JObj [])) = Normal sc
    /\ safetyChecks r = sc
    /\ complianceScore r = calculateComplianceScore sc
    /\ safetyStatus r
       = (if (complianceThreshold (config eng) <=? calculateComplianceScore sc)%float
          then compliant else non_compliant)
    /\ riskAssessment r = assessRisk d sc
    /\ recommendations r = generateRecommendations sc (assessRisk d sc)
    /\ (eng' = eng
        \/ exists event uuid now, eng' = logAuditEvent eng event uuid now).
Proof.
  unfold validateSafety. cbv zeta. intros H.
  apply bind_Normal in H. destruct H as (id1 & _ & H).
  apply bind_Normal in H. destruct H as (ty & _ & H).
  apply bind_Normal in H. destruct H as (sc & Hsc & H).
  apply bind_Normal in H. destruct H as (id2 & _ & H).
  unfold ret in H. injection H as Hr He. subst r.
  exists sc. cbn [safetyChecks complianceScore safetyStatus riskAssessment
                  recommendations].
  repeat (split; [ first [ exact Hsc | reflexivity ] | ]).
  destruct (auditEnabled (config eng)).
  - right. eexists. eexists. eexists. symmetry. exact He.
  - left. symmetry. exact He.
Qed.

(** A validation appends at most one entry, under the same bound. *)
Lemma validateSafety_log_bounded (eng : Engine) (fresh : Fresh)
  (d context : JsValue) (r : ValidationResult) (eng' : Engine) :
  validateSafety eng fresh d context = Normal (r, eng') ->
  List.length (auditLog eng) <= 1000 ->
  List.length (auditLog eng') <= 1000.
Proof.
  intros H Hlen. apply validateSafety_Normal in H.
  destruct H as (sc & _ & _ & _ & _ & _ & _ & [-> | (ev & u & n & ->)]).
  - exact Hlen.
  - apply logAuditEvent_bounded.
Qed.

(** [validateSafety] returns as soon as [performSafetyChecks] does, on
    an inspectable descriptor. *)
Lemma validateSafety_returns (eng : Engine) (fresh : Fresh)
  (d context : JsValue) (sc : SafetyChecks) :
  inspectable d = true ->
  performSafetyChecks d (default_parameter context (JObj [])) = Normal sc ->
  exists r eng', validateSafety eng fresh d context = Normal (r, eng').
Proof.
  intros H Hsc. unfold validateSafety. cbv zeta.
  rewrite !(Get_inspectable d _ H). cbn [bind]. rewrite Hsc. cbn [bind].
  eexists. eexists. reflexivity.
Qed.

(** C7. In every result [validateSafety] returns, the verdict is
    compliant exactly when the compliance score is greater than or equal
    to the engine's [complianceThreshold]. *)
Theorem verdict_iff_threshold (eng : Engine) (fresh : Fresh)
  (d context : JsValue) (r : ValidationResult) (eng' : Engine) :
  validateSafety eng fresh d context = Normal (r, eng') ->
  (safetyStatus r = compliant <->
   (complianceThreshold (config eng) <=? complianceScore r)%float = true).
Proof.
  intros H. apply validateSafety_Normal in H.
  destruct H as (sc & _ & _ & Hscore & Hstatus & _).
  rewrite Hstatus, Hscore.
  destruct (complianceThreshold (config eng) <=? calculateComplianceScore sc)%float;
    split; congruence.
Qed.

(** The empty descriptor scores below the default threshold. *)
Lemma verdict_iff_threshold_witness :
  exists r eng',
    validateSafety default_engine sample_fresh (JObj []) JUndefined
    = Normal (r, eng')
    /\ (safetyStatus r = compliant <->
        (complianceThreshold (config default_engine) <=? complianceScore r)%float
        = true)
    /\ safetyStatus r = non_compliant.
Proof.
  eexists. eexists. split; [ reflexivity | ].
  split; [ | reflexivity ].
  apply (verdict_iff_threshold default_engine sample_fresh (JObj [])
           JUndefined _ _ eq_refl).
Defined.

(** A descriptor on which no sub-condition fails is inspectable. *)
Lemma all_flags_enabled_inspectable (d : JsValue) :
  all_flags_enabled d -> inspectable d = true.
Proof.
  intros Hall.
  assert (H := Hall ethicalGuidelines
                 (mkRow "harmPrevention" Plain 0.6 type_error)).
  destruct d; try reflexivity;
    (assert (Hf : true = false) by (apply H; simpl; tauto); discriminate Hf).
Qed.

Lemma all_flags_enabled_no_deductions (d : JsValue) (c : Category) :
  all_flags_enabled d -> deductions d c = [].
Proof.
  intros Hall. unfold deductions.
  assert (HF : forall rows, (forall row, In row rows -> deficient d row = false) ->
                            filter (deficient d) rows = []).
  { induction rows as [ | row rows IH ]; intros Hr; cbn [filter].
    - reflexivity.
    - rewrite (Hr row (or_introl eq_refl)).
      apply IH. intros row' Hin. apply Hr. right. exact Hin. }
  apply HF. intros row Hin. apply (Hall c row Hin).
Qed.

(** With every flag enabled each check returns the clean result. *)
Lemma clean_checks (d : JsValue) :
  all_flags_enabled d ->
  forall c f, In (c, f) category_checks -> f d = Normal clean_result.
Proof.
  intros Hall c f Hin.
  pose proof (all_flags_enabled_inspectable d Hall) as H.
  destruct (check_is_body_then_return c f Hin) as (body & Hb & Hf).
  destruct (bodies_total d H c body Hb) as ([issues s] & Hst & Hty & Hsc).
  rewrite (all_flags_enabled_no_deductions d c Hall) in Hty, Hsc.
  cbn in Hty, Hsc. apply map_eq_nil in Hty. subst issues s.
  rewrite Hf, Hst. reflexivity.
Qed.

(** C8. For a descriptor with every flag of the table present and
    enabled, [validateSafety] returns compliance score 1.0, verdict
    compliant at the default threshold 0.95, risk level low with no
    critical failure and no warning, and no recommendation. The engine
    built without configuration has threshold 0.95. *)
Theorem fully_compliant_descriptor (eng : Engine) (fresh : Fresh)
  (d context : JsValue) :
  all_flags_enabled d ->
  no_regulatory context = true ->
  complianceThreshold (config eng) = 0.95%float ->
  complianceThreshold (config default_engine) = 0.95%float
  /\ exists r eng',
    validateSafety eng fresh d context = Normal (r, eng')
    /\ complianceScore r = 1%float
    /\ safetyStatus r = compliant
    /\ level (riskAssessment r) = risk_low
    /\ criticalFailures (riskAssessment r) = 0
    /\ warnings (riskAssessment r) = 0
    /\ recommendations r = [].
Proof.
  intros Hall Hctx Hthr. split; [ reflexivity | ].
  pose proof (all_flags_enabled_inspectable d Hall) as H.
  destruct (performSafetyChecks_seven d context H Hctx)
    as (r1 & r2 & r3 & r4 & r5 & r6 & r7
        & E1 & E2 & E3 & E4 & E5 & E6 & E7 & Hsc).
  rewrite (clean_checks d Hall ethicalGuidelines) in E1 by (simpl; tauto).
  rewrite (clean_checks d Hall dataPrivacy) in E2 by (simpl; tauto).
  rewrite (clean_checks d Hall bias) in E3 by (simpl; tauto).
  rewrite (clean_checks d Hall transparency) in E4 by (simpl; tauto).
  rewrite (clean_checks d Hall humanControl) in E5 by (simpl; tauto).
  rewrite (clean_checks d Hall robustness) in E6 by (simpl; tauto).
  rewrite (clean_checks d Hall accountability) in E7 by (simpl; tauto).
  injection E1 as <-. injection E2 as <-. injection E3 as <-.
  injection E4 as <-. injection E5 as <-. injection E6 as <-.
  injection E7 as <-.
  destruct (validateSafety_returns eng fresh d context _ H Hsc)
    as (r & eng' & Hv).
  exists r, eng'. split; [ exact Hv | ].
  apply validateSafety_Normal in Hv.
  destruct Hv as (sc & Hsc' & _ & Hscore & Hstatus & Hrisk & Hrecs & _).
  rewrite Hsc in Hsc'. injection Hsc' as <-.
  rewrite Hscore, Hstatus, Hrisk, Hrecs, Hthr.
  repeat split; reflexivity.
Qed.

Lemma fully_compliant_all_flags : all_flags_enabled fully_compliant.
Proof.
  intros c row Hin.
  destruct c; simpl in Hin;
    repeat (destruct Hin as [<- | Hin]; [ reflexivity | ]);
    contradiction.
Qed.

Lemma fully_compliant_descriptor_witness :
  complianceThreshold (config default_engine) = 0.95%float
  /\ exists r eng',
    validateSafety default_engine sample_fresh fully_compliant JUndefined
    = Normal (r, eng')
    /\ complianceScore r = 1%float
    /\ safetyStatus r = compliant
    /\ level (riskAssessment r) = risk_low
    /\ criticalFailures (riskAssessment r) = 0
    /\ warnings (riskAssessment r) = 0
    /\ recommendations r = [].
Proof.
  apply (fully_compliant_descriptor default_engine sample_fresh
           fully_compliant JUndefined).
  - exact fully_compliant_all_flags.
  - reflexivity.
  - reflexivity.
Defined.

(** C6, as the code has it: every category check returns on an
    inspectable descriptor, and [validateSafety] returns a result for
    every inspectable descriptor and every context that requests no
    regulatory check; on a descriptor that is [undefined] or [null] it
    throws a TypeError, and without a regulatory request it throws on no
    other descriptor. *)
Theorem validateSafety_total_without_regulatory (eng : Engine)
  (fresh : Fresh) (d context : JsValue) :
  (inspectable d = true ->
   forall c f, In (c, f) category_checks -> exists r, f d = Normal r)
  /\ (inspectable d = true -> no_regulatory context = true ->
      exists r eng', validateSafety eng fresh d context = Normal (r, eng'))
  /\ (inspectable d = false ->
      exists e, validateSafety eng fresh d context = Throw e
                /\ name e = "TypeError")
  /\ (no_regulatory context = true ->
      forall e, validateSafety eng fresh d context = Throw e ->
      inspectable d = false).
Proof.
  assert (Hret : inspectable d = true -> no_regulatory context = true ->
                 exists r eng',
                   validateSafety eng fresh d context = Normal (r, eng')).
  { intros H Hctx.
    destruct (performSafetyChecks_seven d context H Hctx)
      as (r1 & r2 & r3 & r4 & r5 & r6 & r7 & _ & _ & _ & _ & _ & _ & _ & Hsc).
    exact (validateSafety_returns eng fresh d context _ H Hsc). }
  split; [ exact (checks_total d) | ].
  split; [ exact Hret | ].
  split.
  - intros H. destruct d; try discriminate H;
      (eexists; split; reflexivity).
  - intros Hctx e He.
    destruct (inspectable d) eqn:H; [ | reflexivity ].
    destruct (Hret eq_refl Hctx) as (r & eng' & Hv). congruence.
Qed.

Lemma validateSafety_total_without_regulatory_witness :
  (exists r eng',
     validateSafety default_engine sample_fresh fully_compliant (JObj [])
     = Normal (r, eng'))
  /\ (exists e,
        validateSafety default_engine sample_fresh JNull (JObj []) = Throw e
        /\ name e = "TypeError").
Proof.
  split.
  - apply (validateSafety_total_without_regulatory default_engine
             sample_fresh fully_compliant (JObj [])); reflexivity.
  - apply (validateSafety_total_without_regulatory default_engine
             sample_fresh JNull (JObj [])); reflexivity.
Defined.

(** C6 fails as stated: on a well-formed descriptor, a context with a
    [regulatory] entry makes [validateSafety] throw, since the engine
    has no [checkRegulatoryCompliance] method; a [null] context throws as
    well; and the error thrown on a [null] descriptor is a TypeError, not
    an error named InvalidInput. *)
Lemma validateSafety_not_total :
  inspectable fully_compliant = true
  /\ validateSafety default_engine sample_fresh fully_compliant
       regulatory_context
     = Throw (TypeError "this.checkRegulatoryCompliance is not a function")
  /\ validateSafety default_engine sample_fresh fully_compliant JNull
     = Throw (TypeError "Cannot read properties of null (reading 'regulatory')")
  /\ (exists e,
        validateSafety default_engine sample_fresh JNull (JObj []) = Throw e
        /\ name e = "TypeError" /\ name e <> "InvalidInput")
  /\ ~ (forall d context, inspectable d = true ->
        exists r eng',
          validateSafety default_engine sample_fresh d context
          = Normal (r, eng')).
Proof.
  split; [ reflexivity | ].
  split; [ reflexivity | ].
  split; [ reflexivity | ].
  split.
  - eexists. split; [ reflexivity | ]. split; [ reflexivity | discriminate ].
  - intros Hall.
    destruct (Hall fully_compliant regulatory_context eq_refl)
      as (r & eng' & Hv).
    discriminate Hv.
Qed.

(* ================================================================== *)
(** ** Recommended actions                                            *)
(* ================================================================== *)

Lemma unmapped_category (c : Category) (msg : string) :
  ~ In c [ ethicalGuidelines; dataPrivacy; humanControl ] ->
  getRecommendedAction c msg = generic_action.
Proof.
  intros Hc. destruct c; try reflexivity; exfalso; apply Hc; simpl; tauto.
Qed.

(** C10. The action table has entries for ethicalGuidelines, dataPrivacy
    and humanControl only, so every issue of the bias, transparency,
    robustness and accountability checks, and the escalation-procedures
    warning of the human-control check, gets the generic action. *)
Theorem unmapped_issues_get_generic_action :
  map fst actionMap = [ ethicalGuidelines; dataPrivacy; humanControl ]
  /\ (forall c msg,
        ~ In c [ ethicalGuidelines; dataPrivacy; humanControl ] ->
        getRecommendedAction c msg = generic_action)
  /\ (forall d, inspectable d = true ->
      forall c f, In (c, f) category_checks ->
      In c [ bias; transparency; robustness; accountability ] ->
      exists r, f d = Normal r
        /\ forall i, In i (checks r) ->
             getRecommendedAction c (issue_message i) = generic_action)
  /\ getRecommendedAction humanControl "Escalation procedures not defined"
     = generic_action
  /\ (exists r, checkHumanControl (JObj []) = Normal r
        /\ In (mkIssue type_warning "Escalation procedures not defined")
              (checks r)).
Proof.
  split; [ reflexivity | ].
  split; [ exact unmapped_category | ].
  split.
  { intros d H c f Hin Hc.
    destruct (checks_total d H c f Hin) as (r & Hr).
    exists r. split; [ exact Hr | ].
    intros i _. apply unmapped_category.
    simpl in Hc |- *.
    intros [<- | [<- | [<- | []]]];
      repeat (destruct Hc as [Hc | Hc]; [ discriminate Hc | ]);
      exact Hc. }
  split; [ reflexivity | ].
  eexists. split; [ reflexivity | ]. simpl. tauto.
Qed.

Lemma unmapped_issues_get_generic_action_witness :
  exists r, checkBias bias_failing = Normal r
    /\ forall i, In i (checks r) ->
         getRecommendedAction bias (issue_message i) = generic_action.
Proof.
  apply (proj1 (proj2 (proj2 unmapped_issues_get_generic_action))
           bias_failing eq_refl bias checkBias).
  - simpl. tauto.
  - simpl. tauto.
Defined.

(* ================================================================== *)
(** ** Comparisons with NaN                                           *)
(* ================================================================== *)

Lemma leb_nan_l (x : float) : (nan <=? x)%float = false.
Proof. rewrite leb_spec. reflexivity. Qed.

Lemma leb_nan_r (x : float) : (x <=? nan)%float = false.
Proof.
  rewrite leb_spec. change (Prim2SF nan) with S754_nan.
  destruct (Prim2SF x); reflexivity.
Qed.

(* ================================================================== *)
(** ** Queries on the audit log                                       *)
(* ================================================================== *)

Lemma filter_filter {A : Type} (p q : A -> bool) (l : list A) :
  filter p (filter q l) = filter (fun x => q x && p x) l.
Proof.
  induction l as [ | x l IH ]; cbn [filter]; [ reflexivity | ].
  destruct (q x); cbn [filter andb]; [ destruct (p x) | ]; rewrite IH;
    reflexivity.
Qed.

Lemma filter_all {A : Type} (l : list A) : filter (fun _ => true) l = l.
Proof.
  induction l as [ | x l IH ]; cbn [filter]; [ | rewrite IH ]; reflexivity.
Qed.

Lemma filter_if {A : Type} (b : bool) (p : A -> bool) (l : list A) :
  (if b then filter p l else l) = filter (fun x => if b then p x else true) l.
Proof. destruct b; [ reflexivity | symmetry; apply filter_all ]. Qed.

Lemma filter_none {A : Type} (p : A -> bool) (l : list A) :
  (forall x, In x l -> p x = false) -> filter p l = [].
Proof.
  induction l as [ | x l IH ]; intros H; cbn [filter]; [ reflexivity | ].
  rewrite (H x (or_introl eq_refl)). apply IH.
  intros y Hy. apply H. right. exact Hy.
Qed.

Lemma truthy_string_Some (o : option string) :
  truthy_string o = true <-> exists s, o = Some s /\ s <> "".
Proof.
  unfold truthy_string. destruct o as [s | ].
  - destruct (String.eqb_spec s ""); cbn [negb]; split.
    + discriminate.
    + intros (s' & [= <-] & Hne). contradiction.
    + intros _. exists s. split; [ reflexivity | assumption ].
    + reflexivity.
  - split; [ discriminate | intros (s & [=] & _) ].
Qed.

Lemma string_or_Some (s : string) : s <> "" -> string_or (Some s) "" = s.
Proof.
  intros H. unfold string_or.
  destruct (String.eqb_spec s ""); [ contradiction | reflexivity ].
Qed.

(** The three optional filters of [getAuditLog] as one predicate. *)
Lemma getAuditLog_as_filter (Date_value : string -> float) (eng : Engine)
  (filters : Filters) :
  getAuditLog Date_value eng filters
  = filter
      (fun e =>
         (if truthy_string (filter_type filters)
          then String.eqb (audit_type e) (string_or (filter_type filters) "")
          else true)
         && (if truthy_string (startDate filters)
             then (Date_value (string_or (startDate filters) "")
                   <=? Date_value (audit_timestamp e))%float
             else true)
         && (if truthy_string (endDate filters)
             then (Date_value (audit_timestamp e)
                   <=? Date_value (string_or (endDate filters) ""))%float
             else true))
      (auditLog eng).
Proof.
  unfold getAuditLog. cbv zeta.
  rewrite !filter_if, !filter_filter.
  apply filter_ext. intros e. apply andb_assoc.
Qed.

(** X2. The answer of [getAuditLog] is the log filtered, in log order, by
    one predicate: an entry is kept exactly when it meets every filter
    that is given and not empty (the type equal to [type]; the timestamp
    not before [startDate]; not after [endDate]). *)
Theorem getAuditLog_keeps_matching_entries (Date_value : string -> float)
  (eng : Engine) (filters : Filters) :
  exists keep,
    getAuditLog Date_value eng filters = filter keep (auditLog eng)
    /\ forall e,
         keep e = true <->
         (forall t, filter_type filters = Some t -> t <> "" ->
                    audit_type e = t)
         /\ (forall s, startDate filters = Some s -> s <> "" ->
               (Date_value s <=? Date_value (audit_timestamp e))%float = true)
         /\ (forall s, endDate filters = Some s -> s <> "" ->
               (Date_value (audit_timestamp e) <=? Date_value s)%float = true).
Proof.
  eexists. split; [ apply getAuditLog_as_filter | ].
  intros e. cbv beta. rewrite !andb_true_iff.
  split.
  - intros [[Ht Hs] He]. repeat split.
    + intros t Et Hne.
      assert (T : truthy_string (filter_type filters) = true)
        by (apply truthy_string_Some; eauto).
      rewrite T, Et, (string_or_Some t Hne) in Ht.
      apply String.eqb_eq. exact Ht.
    + intros s Es Hne.
      assert (T : truthy_string (startDate filters) = true)
        by (apply truthy_string_Some; eauto).
      rewrite T, Es, (string_or_Some s Hne) in Hs. exact Hs.
    + intros s Es Hne.
      assert (T : truthy_string (endDate filters) = true)
        by (apply truthy_string_Some; eauto).
      rewrite T, Es, (string_or_Some s Hne) in He. exact He.
  - intros (Ht & Hs & He). repeat split.
    + destruct (truthy_string (filter_type filters)) eqn:T; [ | reflexivity ].
      apply truthy_string_Some in T. destruct T as (t & Et & Hne).
      rewrite Et, (string_or_Some t Hne). apply String.eqb_eq.
      exact (Ht t Et Hne).
    + destruct (truthy_string (startDate filters)) eqn:T; [ | reflexivity ].
      apply truthy_string_Some in T. destruct T as (s & Es & Hne).
      rewrite Es, (string_or_Some s Hne). exact (Hs s Es Hne).
    + destruct (truthy_string (endDate filters)) eqn:T; [ | reflexivity ].
      apply truthy_string_Some in T. destruct T as (s & Es & Hne).
      rewrite Es, (string_or_Some s Hne). exact (He s Es Hne).
Qed.

(** X3. A [startDate] or [endDate] that is not a valid date empties the
    answer of [getAuditLog], whatever the log holds. *)
Theorem getAuditLog_invalid_date_is_empty (Date_value : string -> float)
  (eng : Engine) (filters : Filters) (s : string) :
  s <> "" -> Date_value s = nan ->
  startDate filters = Some s \/ endDate filters = Some s ->
  getAuditLog Date_value eng filters = [].
Proof.
  intros Hne Hnan Hs. rewrite getAuditLog_as_filter.
  apply filter_none. intros e _.
  destruct Hs as [Es | Es]; rewrite Es.
  - replace (truthy_string (Some s)) with true
      by (symmetry; apply truthy_string_Some; eauto).
    rewrite (string_or_Some s Hne), Hnan, leb_nan_l.
    rewrite andb_false_r. reflexivity.
  - replace (truthy_string (Some s)) with true
      by (symmetry; apply truthy_string_Some; eauto).
    rewrite (string_or_Some s Hne), Hnan, leb_nan_r.
    apply andb_false_r.
Qed.

Lemma getAuditLog_invalid_date_is_empty_witness :
  getAuditLog (fun s => if String.eqb s "yesterday" then nan else 0%float)
    {| config := default_config;
       auditLog := [ sample_entry "safety_validation"
                       "2024-01-01T00:00:00.000Z" 1%float ] |}
    {| filter_type := None; startDate := Some "yesterday"; endDate := None |}
  = [].
Proof.
  apply (getAuditLog_invalid_date_is_empty _ _ _ "yesterday").
  - discriminate.
  - reflexivity.
  - left. reflexivity.
Defined.

(* ================================================================== *)
(** ** The constructor                                                *)
(* ================================================================== *)

(** X1. A key given in the constructor's [config] is kept as it is, also a
    falsy one (threshold 0, [auditEnabled: false], an empty level): the
    spread of [config] overrides the defaults computed with [||]. A key
    left out comes from the environment when that value is truthy, and
    else is 0.95, [false] and ['full']. A new engine has an empty log. *)
Theorem constructor_keeps_explicit_config (cfg : ConfigArg)
  (env : ProcessEnv) :
  let c := config (constructor cfg env) in
  auditLog (constructor cfg env) = []
  /\ (forall t, arg_complianceThreshold cfg = Some t ->
                complianceThreshold c = t)
  /\ (arg_complianceThreshold cfg = None ->
      complianceThreshold c
      = if is_zero (env_complianceThreshold env)
           || is_nan (env_complianceThreshold env)
        then 0.95%float else env_complianceThreshold env)
  /\ (forall b, arg_auditEnabled cfg = Some b -> auditEnabled c = b)
  /\ (arg_auditEnabled cfg = None -> auditEnabled c = env_auditEnabled env)
  /\ (forall l, arg_transparencyLevel cfg = Some l ->
                transparencyLevel c = l)
  /\ (arg_transparencyLevel cfg = None ->
      transparencyLevel c
      = match env_transparencyLevel env with
        | Some l => if String.eqb l "" then "full" else l
        | None => "full"
        end).
Proof.
  cbv zeta. unfold constructor. cbn [config auditLog complianceThreshold
                                     auditEnabled transparencyLevel].
  split; [ reflexivity | ].
  split; [ intros t ->; reflexivity | ].
  split; [ intros ->; reflexivity | ].
  split; [ intros b ->; reflexivity | ].
  split; [ intros ->; reflexivity | ].
  split; [ intros l ->; reflexivity | ].
  intros ->. reflexivity.
Qed.

Lemma constructor_keeps_explicit_config_witness :
  complianceThreshold
    (config (constructor
               {| arg_complianceThreshold := Some 0%float;
                  arg_auditEnabled := Some false;
                  arg_transparencyLevel := None |}
               {| env_complianceThreshold := 0.8%float;
                  env_auditEnabled := true;
                  env_transparencyLevel := Some "" |}))
  = 0%float.
Proof.
  apply (proj1 (proj2 (constructor_keeps_explicit_config _ _))).
  reflexivity.
Defined.

(* ================================================================== *)
(** ** The audit entry of a validation, and the engines in use        *)
(* ================================================================== *)

Lemma logAuditEvent_eq (eng : Engine) (event : Event) (uuid now : string) :
  logAuditEvent eng event uuid now
  = {| config := config eng;
       auditLog :=
         slice_last 1000 (auditLog eng ++ [stamp (event, (uuid, now))]) |}.
Proof.
  rewrite <- logAuditEvent_log. reflexivity.
Qed.

(** The engine after a validation that returned. *)
Lemma validateSafety_engine (eng : Engine) (fresh : Fresh)
  (d context : JsValue) (r : ValidationResult) (eng' : Engine) :
  validateSafety eng fresh d context = Normal (r, eng') ->
  validationId r = fresh_validationId fresh
  /\ timestamp r = fresh_timestamp fresh
  /\ eng' = (if auditEnabled (config eng)
             then {| config := config eng;
                     auditLog :=
                       slice_last 1000 (auditLog eng ++ [entry_of fresh r]) |}
             else eng).
Proof.
  unfold validateSafety. cbv zeta. intros H.
  apply bind_Normal in H. destruct H as (id1 & _ & H).
  apply bind_Normal in H. destruct H as (ty & _ & H).
  apply bind_Normal in H. destruct H as (sc & Hsc & H).
  apply bind_Normal in H. destruct H as (id2 & _ & H).
  unfold ret in H. injection H as Hr He. subst r.
  cbn [validationId timestamp].
  split; [ reflexivity | ]. split; [ reflexivity | ].
  rewrite <- He. destruct (auditEnabled (config eng)); [ | reflexivity ].
  rewrite logAuditEvent_eq. reflexivity.
Qed.

(** X4. With auditing enabled, a validation that returns appends one entry
    that records the result it returned (its validation id, verdict,
    score, risk level and timestamp) and drops the oldest entry of a full
    log; with auditing disabled it leaves the engine as it was. The
    configuration never changes. *)
Theorem validateSafety_logs_its_result (eng : Engine) (fresh : Fresh)
  (d context : JsValue) (r : ValidationResult) (eng' : Engine) :
  validateSafety eng fresh d context = Normal (r, eng') ->
  config eng' = config eng
  /\ (auditEnabled (config eng) = false -> eng' = eng)
  /\ (auditEnabled (config eng) = true ->
      auditLog eng' = slice_last 1000 (auditLog eng ++ [entry_of fresh r])
      /\ (List.length (auditLog eng) < 1000 ->
          auditLog eng' = auditLog eng ++ [entry_of fresh r])
      /\ (List.length (auditLog eng) = 1000 ->
          auditLog eng' = skipn 1 (auditLog eng) ++ [entry_of fresh r]))
  /\ audit_validationId (entry_of fresh r) = fresh_validationId fresh
  /\ summary_status (audit_result (entry_of fresh r)) = safetyStatus r
  /\ summary_score (audit_result (entry_of fresh r)) = complianceScore r
  /\ summary_riskLevel (audit_result (entry_of fresh r))
     = level (riskAssessment r).
Proof.
  intros H. apply validateSafety_engine in H.
  destruct H as (Hid & Hts & He).
  split; [ rewrite He; destruct (auditEnabled (config eng)); reflexivity | ].
  split; [ intros Ha; rewrite Ha in He; exact He | ].
  split.
  { intros Ha. rewrite Ha in He. subst eng'. cbn [auditLog].
    split; [ reflexivity | ]. split.
    - intros Hlt. apply slice_last_short. rewrite length_app.
      cbn [List.length]. lia.
    - intros Heq. unfold slice_last. rewrite length_app, Heq.
      cbn [List.length]. replace (1000 + 1 - 1000) with 1 by lia.
      rewrite skipn_app, Heq. reflexivity. }
  cbn. rewrite Hid. repeat split; reflexivity.
Qed.

Lemma validateSafety_logs_its_result_witness :
  exists r eng',
    validateSafety audit_engine sample_fresh fully_compliant JUndefined
    = Normal (r, eng')
    /\ auditLog eng' = [ entry_of sample_fresh r ]
    /\ audit_validationId (entry_of sample_fresh r) = "0b4c2a7e-validation".
Proof.
  eexists. eexists. split; [ reflexivity | ].
  pose proof (validateSafety_logs_its_result audit_engine sample_fresh
                fully_compliant JUndefined _ _ eq_refl) as H.
  split.
  - apply (proj1 (proj2 (proj1 (proj2 (proj2 H)) eq_refl))).
    cbn. lia.
  - apply (proj1 (proj2 (proj2 (proj2 H)))).
Defined.

Lemma In_skipn {A : Type} (n : nat) (x : A) :
  forall l, In x (skipn n l) -> In x l.
Proof.
  induction n as [ | n IH ]; intros l H; [ exact H | ].
  destruct l as [ | y l ]; [ exact H | ]. right. apply IH. exact H.
Qed.

(** The verdict a validation returns is the one its score has under the
    engine's threshold, so its entry is a validation entry. *)
Lemma entry_of_is_validation_entry (eng : Engine) (fresh : Fresh)
  (d context : JsValue) (r : ValidationResult) (eng' : Engine) :
  validateSafety eng fresh d context = Normal (r, eng') ->
  validation_entry (complianceThreshold (config eng)) (entry_of fresh r).
Proof.
  intros H. apply validateSafety_Normal in H.
  destruct H as (sc & _ & _ & Hscore & Hstatus & _).
  split; [ reflexivity | ].
  cbn. rewrite Hstatus, Hscore. reflexivity.
Qed.

Lemma reachable_keeps_invariant (cfg : ConfigArg) (env : ProcessEnv)
  (eng : Engine) :
  reachable cfg env eng ->
  config eng = config (constructor cfg env)
  /\ List.length (auditLog eng) <= 1000
  /\ Forall (validation_entry (complianceThreshold (config eng)))
            (auditLog eng)
  /\ (auditEnabled (config eng) = false -> auditLog eng = []).
Proof.
  intros Hr.
  induction Hr as [ | eng eng' fresh d context r Hr IH Hv ].
  - cbn [constructor auditLog List.length].
    repeat split; auto; lia.
  - destruct IH as (Hc & Hlen & Hall & Hoff).
    pose proof (entry_of_is_validation_entry _ _ _ _ _ _ Hv) as Hentry.
    apply validateSafety_engine in Hv. destruct Hv as (_ & _ & He).
    destruct (auditEnabled (config eng)) eqn:Ha; subst eng'.
    + cbn [config auditLog]. rewrite Ha.
      split; [ exact Hc | ].
      split; [ rewrite slice_last_length; lia | ].
      split; [ | discriminate ].
      apply Forall_forall. intros e Hin. unfold slice_last in Hin.
      apply In_skipn, in_app_or in Hin. destruct Hin as [Hin | [<- | []]].
      * rewrite Forall_forall in Hall. apply Hall. exact Hin.
      * exact Hentry.
    + rewrite Ha. auto.
Qed.

(** X5. Whatever validations an engine has served since it was built: its
    configuration is the one it was built with; its audit log holds at
    most 1000 entries, each of type ['safety_validation'] and with the
    verdict its recorded score has under the engine's threshold; with
    auditing disabled the log is empty; and [getHealthStatus] reports
    that configuration and a log size of at most 1000. *)
Theorem reachable_engine_invariant (cfg : ConfigArg) (env : ProcessEnv)
  (eng : Engine) :
  reachable cfg env eng ->
  config eng = config (constructor cfg env)
  /\ List.length (auditLog eng) <= 1000
  /\ Forall (validation_entry (complianceThreshold (config eng)))
            (auditLog eng)
  /\ (auditEnabled (config eng) = false -> auditLog eng = [])
  /\ (forall now,
        auditLogSize (getHealthStatus eng now) <= 1000
        /\ health_config (getHealthStatus eng now)
           = config (constructor cfg env)).
Proof.
  intros Hr.
  destruct (reachable_keeps_invariant cfg env eng Hr)
    as (Hc & Hlen & Hall & Hoff).
  do 4 (split; [ assumption | ]).
  intros now. unfold getHealthStatus. cbn [auditLogSize health_config].
  split; [ exact Hlen | ].
  rewrite <- Hc. destruct (config eng). reflexivity.
Qed.

Lemma reachable_engine_invariant_witness :
  List.length (auditLog validated_once) <= 1000
  /\ Forall (validation_entry
              (complianceThreshold (config validated_once)))
            (auditLog validated_once)
  /\ auditLog validated_once <> [].
Proof.
  assert (Hr : reachable
                 {| arg_complianceThreshold := None;
                    arg_auditEnabled := Some true;
                    arg_transparencyLevel := None |}
                 {| env_complianceThreshold := nan;
                    env_auditEnabled := false;
                    env_transparencyLevel := None |} validated_once).
  { refine (reachable_validate _ _ audit_engine validated_once sample_fresh
              fully_compliant JUndefined _ (reachable_new _ _) _).
    reflexivity. }
  pose proof (reachable_engine_invariant _ _ _ Hr) as (_ & Hlen & Hall & _).
  split; [ exact Hlen | ]. split; [ exact Hall | discriminate ].
Defined.

(* ================================================================== *)
(** ** The outcomes of the checks                                     *)
(* ================================================================== *)

(** On an inspectable descriptor a check returns one of its eight
    outcomes. *)
Lemma check_outcome (d : JsValue) :
  inspectable d = true ->
  forall c f, In (c, f) category_checks ->
  exists r, f d = Normal r /\ In r (outcomes c f).
Proof.
  intros H c f Hin. simpl in Hin.
  repeat (destruct Hin as [Hin | Hin];
          [ inversion Hin; subst; clear Hin | ]);
    try contradiction;
    match goal with |- exists r, ?chk d = _ /\ _ => unfold chk end;
    cbv delta [checkEthicalGuidelines_body checkDataPrivacy_body
               checkBias_body checkTransparency_body checkHumanControl_body
               checkRobustness_body checkAccountability_body] beta zeta;
    rewrite_conds H; rewrite !deduct_Normal; split_flags;
    (eexists; split;
     [ reflexivity
     | vm_compute; repeat first [ left; reflexivity | right ] ]).
Qed.

Lemma Get_Normal_inspectable (v : JsValue) (p : string) (x : JsValue) :
  Get v p = Normal x -> inspectable v = true.
Proof. destruct v; cbn; intros H; try discriminate H; reflexivity. Qed.

(** A validation that returns has run the seven checks, each ending in
    one of its outcomes, and nothing else. *)
Lemma validateSafety_seven_outcomes (eng : Engine) (fresh : Fresh)
  (d context : JsValue) (r : ValidationResult) (eng' : Engine) :
  validateSafety eng fresh d context = Normal (r, eng') ->
  exists r1 r2 r3 r4 r5 r6 r7,
    In r1 (outcomes ethicalGuidelines checkEthicalGuidelines)
    /\ In r2 (outcomes dataPrivacy checkDataPrivacy)
    /\ In r3 (outcomes bias checkBias)
    /\ In r4 (outcomes transparency checkTransparency)
    /\ In r5 (outcomes humanControl checkHumanControl)
    /\ In r6 (outcomes robustness checkRobustness)
    /\ In r7 (outcomes accountability checkAccountability)
    /\ safetyChecks r
       = [ (ethicalGuidelines, r1); (dataPrivacy, r2); (bias, r3);
           (transparency, r4); (humanControl, r5); (robustness, r6);
           (accountability, r7) ].
Proof.
  intros Hv.
  assert (H : inspectable d = true).
  { unfold validateSafety in Hv. cbv zeta in Hv.
    apply bind_Normal in Hv. destruct Hv as (x & Hx & _).
    exact (Get_Normal_inspectable _ _ _ Hx). }
  apply validateSafety_Normal in Hv.
  destruct Hv as (sc & Hsc & Hr & _). rewrite Hr. clear Hr.
  destruct (check_outcome d H ethicalGuidelines checkEthicalGuidelines)
    as (r1 & E1 & I1); [ simpl; tauto | ].
  destruct (check_outcome d H dataPrivacy checkDataPrivacy)
    as (r2 & E2 & I2); [ simpl; tauto | ].
  destruct (check_outcome d H bias checkBias)
    as (r3 & E3 & I3); [ simpl; tauto | ].
  destruct (check_outcome d H transparency checkTransparency)
    as (r4 & E4 & I4); [ simpl; tauto | ].
  destruct (check_outcome d H humanControl checkHumanControl)
    as (r5 & E5 & I5); [ simpl; tauto | ].
  destruct (check_outcome d H robustness checkRobustness)
    as (r6 & E6 & I6); [ simpl; tauto | ].
  destruct (check_outcome d H accountability checkAccountability)
    as (r7 & E7 & I7); [ simpl; tauto | ].
  exists r1, r2, r3, r4, r5, r6, r7.
  repeat (split; [ assumption | ]).
  unfold performSafetyChecks in Hsc.
  rewrite E1, E2, E3, E4, E5, E6, E7 in Hsc. cbn [bind] in Hsc.
  apply bind_Normal in Hsc. destruct Hsc as (reg & _ & Hsc).
  destruct (ToBoolean reg); [ discriminate Hsc | ].
  injection Hsc as <-. reflexivity.
Qed.

Lemma all_outcomes_sound (P : SafetyChecks -> bool) :
  all_outcomes P = true ->
  forall r1 r2 r3 r4 r5 r6 r7,
    In r1 (outcomes ethicalGuidelines checkEthicalGuidelines) ->
    In r2 (outcomes dataPrivacy checkDataPrivacy) ->
    In r3 (outcomes bias checkBias) ->
    In r4 (outcomes transparency checkTransparency) ->
    In r5 (outcomes humanControl checkHumanControl) ->
    In r6 (outcomes robustness checkRobustness) ->
    In r7 (outcomes accountability checkAccountability) ->
    P [ (ethicalGuidelines, r1); (dataPrivacy, r2); (bias, r3);
        (transparency, r4); (humanControl, r5); (robustness, r6);
        (accountability, r7) ] = true.
Proof.
  unfold all_outcomes. cbv zeta. intros HP r1 r2 r3 r4 r5 r6 r7
    I1 I2 I3 I4 I5 I6 I7.
  rewrite forallb_forall in HP. specialize (HP r1 I1).
  rewrite forallb_forall in HP. specialize (HP r2 I2).
  rewrite forallb_forall in HP. specialize (HP r3 I3).
  rewrite forallb_forall in HP. specialize (HP r4 I4).
  rewrite forallb_forall in HP. specialize (HP r5 I5).
  rewrite forallb_forall in HP. specialize (HP r6 I6).
  rewrite forallb_forall in HP. exact (HP r7 I7).
Qed.

(** Every combination of outcomes, evaluated. *)
Lemma all_outcomes_agree : all_outcomes score_and_risk_agree = true.
Proof. vm_compute. reflexivity. Qed.

Lemma validateSafety_score_and_risk (eng : Engine) (fresh : Fresh)
  (d context : JsValue) (r : ValidationResult) (eng' : Engine) :
  validateSafety eng fresh d context = Normal (r, eng') ->
  score_and_risk_agree (safetyChecks r) = true
  /\ complianceScore r = calculateComplianceScore (safetyChecks r)
  /\ riskAssessment r = assessRisk JUndefined (safetyChecks r)
  /\ safetyStatus r
     = (if (complianceThreshold (config eng) <=? complianceScore r)%float
        then compliant else non_compliant)
  /\ recommendations r
     = generateRecommendations (safetyChecks r) (riskAssessment r).
Proof.
  intros Hv.
  destruct (validateSafety_seven_outcomes _ _ _ _ _ _ Hv)
    as (r1 & r2 & r3 & r4 & r5 & r6 & r7
        & I1 & I2 & I3 & I4 & I5 & I6 & I7 & Hsc).
  split.
  { rewrite Hsc.
    exact (all_outcomes_sound _ all_outcomes_agree
             r1 r2 r3 r4 r5 r6 r7 I1 I2 I3 I4 I5 I6 I7). }
  apply validateSafety_Normal in Hv.
  destruct Hv as (sc & _ & Hr & Hscore & Hstatus & Hrisk & Hrecs & _).
  rewrite Hr, Hscore, Hstatus, Hrisk, Hrecs. repeat split; reflexivity.
Qed.

Lemma score_and_risk_agree_parts (sc : SafetyChecks) :
  score_and_risk_agree sc = true ->
  let s := calculateComplianceScore sc in
  let risk := assessRisk JUndefined sc in
  (0.3018 <=? s)%float = true
  /\ (s <=? 1)%float = true
  /\ (0 <=? s)%float = true
  /\ (warnings risk <=? 11)%nat = true
  /\ no_issue sc = (1 <=? s)%float
  /\ ((0.95 <=? s)%float = true ->
      criticalFailures risk <= 1 /\ warnings risk <= 4
      /\ level risk <> risk_high)
  /\ (level risk = risk_high -> (s <? 0.95)%float = true)
  /\ (level risk = risk_low -> (0.74 <=? s)%float = true).
Proof.
  unfold score_and_risk_agree. cbv zeta. rewrite !andb_true_iff.
  intros ((((((H1 & H2) & H3) & H4) & H5) & H6) & H7).
  repeat (split; [ assumption | ]).
  split; [ apply Bool.eqb_prop; exact H5 | ].
  split.
  { intros Hc. rewrite Hc in H6. cbn [implb] in H6.
    rewrite !andb_true_iff in H6. destruct H6 as ((Hcf & Hw) & Hl).
    apply Nat.leb_le in Hcf. apply Nat.leb_le in Hw.
    repeat split; try assumption.
    intros E. rewrite E in Hl. discriminate Hl. }
  split; intros E; rewrite E in H7; exact H7.
Qed.

(* ================================================================== *)
(** ** Issues, status and critical failures                           *)
(* ================================================================== *)

Lemma outcomes_fit_status (c : Category)
  (f : JsValue -> Completion CategoryResult) :
  In (c, f) category_checks ->
  forallb issues_fit_status (outcomes c f) = true.
Proof.
  intros Hin. simpl in Hin.
  repeat (destruct Hin as [Hin | Hin];
          [ inversion Hin; subst; clear Hin; vm_compute; reflexivity | ]).
  contradiction.
Qed.

Lemma issues_fit_status_fail (r : CategoryResult) :
  issues_fit_status r = true ->
  is_fail r && existsb is_error (checks r) = is_fail r.
Proof.
  unfold issues_fit_status, is_fail. intros H.
  apply andb_true_iff in H. destruct H as (_ & H).
  destruct (status r); cbn [andb]; try reflexivity. exact H.
Qed.

(** X6. On every inspectable descriptor each of the seven checks reports at
    most three issues, reports none exactly when its score is 1, reports
    no error when its status is pass and at least one error when its
    status is fail: warnings alone never fail a category. *)
Theorem category_issues_fit_status (d : JsValue) :
  inspectable d = true ->
  forall c f, In (c, f) category_checks ->
  exists r, f d = Normal r
    /\ List.length (checks r) <= 3
    /\ (checks r = [] <-> (1 <=? score r)%float = true)
    /\ (status r = status_pass ->
        forall i, In i (checks r) -> type i = type_warning)
    /\ (status r = status_fail ->
        exists i, In i (checks r) /\ type i = type_error).
Proof.
  intros H c f Hin.
  destruct (check_outcome d H c f Hin) as (r & Hr & Hout).
  pose proof (outcomes_fit_status c f Hin) as Hfit.
  rewrite forallb_forall in Hfit. specialize (Hfit r Hout).
  unfold issues_fit_status in Hfit.
  apply andb_true_iff in Hfit. destruct Hfit as (Hfit & Hst).
  apply andb_true_iff in Hfit. destruct Hfit as (Hlen & Hnil).
  exists r. split; [ exact Hr | ].
  split; [ apply Nat.leb_le; exact Hlen | ].
  split.
  { apply Bool.eqb_prop in Hnil. rewrite <- Hnil.
    destruct (checks r); split; congruence. }
  split.
  - intros Hp i Hi. rewrite Hp in Hst.
    apply negb_true_iff in Hst.
    destruct (type i) eqn:Ti; [ reflexivity | ].
    assert (Hex : existsb is_error (checks r) = true).
    { apply existsb_exists. exists i. split; [ exact Hi | ].
      apply is_error_iff. exact Ti. }
    congruence.
  - intros Hf. rewrite Hf in Hst.
    apply existsb_exists in Hst. destruct Hst as (i & Hi & He).
    exists i. split; [ exact Hi | apply is_error_iff; exact He ].
Qed.

Lemma category_issues_fit_status_witness :
  exists r, checkEthicalGuidelines no_harm_prevention = Normal r
    /\ List.length (checks r) <= 3
    /\ (checks r = [] <-> (1 <=? score r)%float = true)
    /\ (status r = status_pass ->
        forall i, In i (checks r) -> type i = type_warning)
    /\ (status r = status_fail ->
        exists i, In i (checks r) /\ type i = type_error).
Proof.
  apply (category_issues_fit_status no_harm_prevention eq_refl
           ethicalGuidelines checkEthicalGuidelines).
  simpl. tauto.
Defined.

(** X7. In the risk assessment of every validation that returns,
    [criticalFailures] is the number of categories with status fail: the
    engine's checks never fail a category without an error issue. *)
Theorem critical_failures_are_the_failing_categories (eng : Engine)
  (fresh : Fresh) (d context : JsValue) (r : ValidationResult)
  (eng' : Engine) :
  validateSafety eng fresh d context = Normal (r, eng') ->
  criticalFailures (riskAssessment r)
  = List.length (filter is_fail (Object_values (safetyChecks r)))
  /\ criticalFailures (riskAssessment r) <= 7
  /\ warnings (riskAssessment r) <= 11.
Proof.
  intros Hv.
  pose proof (validateSafety_score_and_risk _ _ _ _ _ _ Hv)
    as (Hagree & _ & Hrisk & _).
  assert (Hw : warnings (riskAssessment r) <= 11).
  { apply score_and_risk_agree_parts in Hagree.
    rewrite <- Hrisk in Hagree.
    destruct Hagree as (_ & _ & _ & Hagree & _).
    apply Nat.leb_le. exact Hagree. }
  destruct (validateSafety_seven_outcomes _ _ _ _ _ _ Hv)
    as (r1 & r2 & r3 & r4 & r5 & r6 & r7
        & I1 & I2 & I3 & I4 & I5 & I6 & I7 & Hsc).
  assert (F : forall c f x, In (c, f) category_checks ->
                In x (outcomes c f) -> issues_fit_status x = true).
  { intros c f x Hin Hx. pose proof (outcomes_fit_status c f Hin) as Hfit.
    rewrite forallb_forall in Hfit. exact (Hfit x Hx). }
  assert (F1 := F _ _ r1 (or_introl eq_refl) I1).
  assert (F2 := F _ _ r2 (or_intror (or_introl eq_refl)) I2).
  assert (F3 := F _ _ r3 (or_intror (or_intror (or_introl eq_refl))) I3).
  assert (F4 := F _ _ r4
                  (or_intror (or_intror (or_intror (or_introl eq_refl)))) I4).
  assert (F5 := F _ _ r5
                  (or_intror (or_intror (or_intror (or_intror
                     (or_introl eq_refl))))) I5).
  assert (F6 := F _ _ r6
                  (or_intror (or_intror (or_intror (or_intror (or_intror
                     (or_introl eq_refl)))))) I6).
  assert (F7 := F _ _ r7
                  (or_intror (or_intror (or_intror (or_intror (or_intror
                     (or_intror (or_introl eq_refl))))))) I7).
  rewrite Hrisk, Hsc. unfold assessRisk.
  cbn [criticalFailures warnings Object_values map snd filter fold_left].
  rewrite (issues_fit_status_fail r1 F1), (issues_fit_status_fail r2 F2),
    (issues_fit_status_fail r3 F3), (issues_fit_status_fail r4 F4),
    (issues_fit_status_fail r5 F5), (issues_fit_status_fail r6 F6),
    (issues_fit_status_fail r7 F7).
  split; [ reflexivity | ].
  split.
  - destruct (is_fail r1), (is_fail r2), (is_fail r3), (is_fail r4),
      (is_fail r5), (is_fail r6), (is_fail r7); cbn [List.length]; lia.
  - rewrite Hrisk, Hsc in Hw. exact Hw.
Qed.

Lemma critical_failures_are_the_failing_categories_witness :
  exists r eng',
    validateSafety default_engine sample_fresh (JObj []) JUndefined
    = Normal (r, eng')
    /\ criticalFailures (riskAssessment r) = 7
    /\ criticalFailures (riskAssessment r)
       = List.length (filter is_fail (Object_values (safetyChecks r))).
Proof.
  eexists. eexists. split; [ reflexivity | ]. split; [ reflexivity | ].
  apply (critical_failures_are_the_failing_categories default_engine
           sample_fresh (JObj []) JUndefined _ _ eq_refl).
Defined.

(* ================================================================== *)
(** ** Score, verdict and risk of a validation                        *)
(* ================================================================== *)

Lemma no_issue_iff (sc : SafetyChecks) :
  no_issue sc = true <->
  forall c res, In (c, res) sc -> checks res = [].
Proof.
  unfold no_issue. rewrite forallb_forall. split.
  - intros H c res Hin. specialize (H (c, res) Hin). cbn [snd] in H.
    destruct (checks res); [ reflexivity | discriminate H ].
  - intros H [c res] Hin. cbn [snd]. rewrite (H c res Hin). reflexivity.
Qed.

Lemma no_issue_no_recommendations (sc : SafetyChecks)
  (risk : RiskAssessment) :
  no_issue sc = true -> generateRecommendations sc risk = [].
Proof.
  intros H. rewrite generateRecommendations_passes.
  rewrite no_issue_iff in H.
  assert (H1 : pass1 sc = []).
  { destruct (pass1 sc) as [ | x l ] eqn:E; [ reflexivity | ].
    assert (Hx : In x (pass1 sc)) by (rewrite E; left; reflexivity).
    apply In_pass1 in Hx. destruct Hx as (c & res & i & Hin & _ & Hi & _).
    rewrite (H c res Hin) in Hi. contradiction. }
  assert (H2 : pass2 sc = []).
  { destruct (pass2 sc) as [ | x l ] eqn:E; [ reflexivity | ].
    assert (Hx : In x (pass2 sc)) by (rewrite E; left; reflexivity).
    apply In_pass2 in Hx. destruct Hx as (c & res & i & Hin & Hi & _).
    rewrite (H c res Hin) in Hi. contradiction. }
  rewrite H1, H2. reflexivity.
Qed.

(** The descriptor without any flag is validated by every engine. *)
Lemma empty_descriptor_is_validated (eng : Engine)
  (fresh : Fresh) :
  exists r eng',
    validateSafety eng fresh (JObj []) JUndefined = Normal (r, eng').
Proof.
  destruct (performSafetyChecks_seven (JObj []) JUndefined eq_refl eq_refl)
    as (r1 & r2 & r3 & r4 & r5 & r6 & r7 & _ & _ & _ & _ & _ & _ & _ & Hsc).
  exact (validateSafety_returns eng fresh (JObj []) JUndefined _ eq_refl Hsc).
Qed.

(** X8. The compliance score of every validation that returns lies between
    0.3018 and 1; it reaches 1 exactly when no category reports an issue,
    and then there is no recommendation. The descriptor without any flag
    scores 0.3018. *)
Theorem compliance_score_range (eng : Engine) (fresh : Fresh)
  (d context : JsValue) (r : ValidationResult) (eng' : Engine) :
  validateSafety eng fresh d context = Normal (r, eng') ->
  (0.3018 <=? complianceScore r)%float = true
  /\ (complianceScore r <=? 1)%float = true
  /\ ((1 <=? complianceScore r)%float = true <->
      forall c res, In (c, res) (safetyChecks r) -> checks res = [])
  /\ ((1 <=? complianceScore r)%float = true -> recommendations r = [])
  /\ (exists r0 eng0,
        validateSafety eng fresh (JObj []) JUndefined = Normal (r0, eng0)
        /\ complianceScore r0 = 0.3018%float).
Proof.
  intros Hv.
  pose proof (validateSafety_score_and_risk _ _ _ _ _ _ Hv)
    as (Hagree & Hscore & _ & _ & Hrecs).
  apply score_and_risk_agree_parts in Hagree. cbv zeta in Hagree.
  rewrite <- Hscore in Hagree.
  destruct Hagree as (Hlo & Hhi & _ & _ & Hno & _).
  split; [ exact Hlo | ]. split; [ exact Hhi | ].
  split; [ rewrite <- Hno; apply no_issue_iff | ].
  split.
  - intros H1. rewrite Hrecs. apply no_issue_no_recommendations.
    rewrite Hno. exact H1.
  - destruct (empty_descriptor_is_validated eng fresh)
      as (r0 & eng0 & H0).
    exists r0, eng0. split; [ exact H0 | ].
    apply validateSafety_Normal in H0.
    destruct H0 as (sc & Hsc & _ & Hs & _).
    rewrite Hs.
    assert (Esc : performSafetyChecks (JObj [])
                    (default_parameter JUndefined (JObj []))
                  = performSafetyChecks (JObj []) (JObj []))
      by reflexivity.
    rewrite Esc in Hsc.
    assert (Hc : performSafetyChecks (JObj []) (JObj []) = Normal sc
                 -> calculateComplianceScore sc = 0.3018%float).
    { vm_compute. intros [= <-]. reflexivity. }
    exact (Hc Hsc).
Qed.

Lemma compliance_score_range_witness :
  exists r eng',
    validateSafety default_engine sample_fresh no_harm_prevention JUndefined
    = Normal (r, eng')
    /\ (0.3018 <=? complianceScore r)%float = true
    /\ (complianceScore r <=? 1)%float = true.
Proof.
  eexists. eexists. split; [ reflexivity | ].
  pose proof (compliance_score_range default_engine sample_fresh
                no_harm_prevention JUndefined _ _ eq_refl) as H.
  split; [ exact (proj1 H) | exact (proj1 (proj2 H)) ].
Defined.

(** X9. For every validation that returns: a score of at least 0.95 comes
    with at most one critical failure, at most four warnings and a risk
    level that is not high; risk level high comes with a score below
    0.95, and risk level low with a score of at least 0.74. So under the
    default threshold a compliant verdict never has risk level high. *)
Theorem verdict_and_risk_level (eng : Engine) (fresh : Fresh)
  (d context : JsValue) (r : ValidationResult) (eng' : Engine) :
  validateSafety eng fresh d context = Normal (r, eng') ->
  ((0.95 <=? complianceScore r)%float = true ->
   criticalFailures (riskAssessment r) <= 1
   /\ warnings (riskAssessment r) <= 4
   /\ level (riskAssessment r) <> risk_high)
  /\ (level (riskAssessment r) = risk_high ->
      (complianceScore r <? 0.95)%float = true)
  /\ (level (riskAssessment r) = risk_low ->
      (0.74 <=? complianceScore r)%float = true)
  /\ (complianceThreshold (config eng) = 0.95%float ->
      safetyStatus r = compliant ->
      level (riskAssessment r) <> risk_high).
Proof.
  intros Hv.
  pose proof (validateSafety_score_and_risk _ _ _ _ _ _ Hv)
    as (Hagree & Hscore & Hrisk & Hstatus & _).
  apply score_and_risk_agree_parts in Hagree. cbv zeta in Hagree.
  rewrite <- Hscore, <- Hrisk in Hagree.
  destruct Hagree as (_ & _ & _ & _ & _ & Hc & Hh & Hl).
  split; [ exact Hc | ]. split; [ exact Hh | ]. split; [ exact Hl | ].
  intros Ht Hs. rewrite Ht in Hstatus.
  destruct (0.95 <=? complianceScore r)%float eqn:E.
  - apply Hc. reflexivity.
  - rewrite Hstatus in Hs. discriminate Hs.
Qed.

Lemma verdict_and_risk_level_witness :
  exists r eng',
    validateSafety default_engine sample_fresh (JObj []) JUndefined
    = Normal (r, eng')
    /\ level (riskAssessment r) = risk_high
    /\ (complianceScore r <? 0.95)%float = true.
Proof.
  eexists. eexists. split; [ reflexivity | ]. split; [ reflexivity | ].
  apply (proj1 (proj2 (verdict_and_risk_level default_engine sample_fresh
                         (JObj []) JUndefined _ _ eq_refl))).
  reflexivity.
Defined.

(** X10. An engine whose threshold is 0 returns the verdict compliant for
    every descriptor it validates, and one whose threshold is NaN never
    does. *)
Theorem extreme_thresholds (eng : Engine) (fresh : Fresh)
  (d context : JsValue) (r : ValidationResult) (eng' : Engine) :
  validateSafety eng fresh d context = Normal (r, eng') ->
  (complianceThreshold (config eng) = 0%float -> safetyStatus r = compliant)
  /\ (complianceThreshold (config eng) = nan ->
      safetyStatus r = non_compliant).
Proof.
  intros Hv.
  pose proof (validateSafety_score_and_risk _ _ _ _ _ _ Hv)
    as (Hagree & Hscore & _ & Hstatus & _).
  apply score_and_risk_agree_parts in Hagree. cbv zeta in Hagree.
  rewrite <- Hscore in Hagree. destruct Hagree as (_ & _ & H0 & _).
  split; intros Ht; rewrite Ht in Hstatus; rewrite Hstatus.
  - rewrite H0. reflexivity.
  - rewrite leb_nan_l. reflexivity.
Qed.

Lemma extreme_thresholds_witness :
  exists r eng',
    validateSafety
      (constructor {| arg_complianceThreshold := Some 0%float;
                      arg_auditEnabled := None;
                      arg_transparencyLevel := None |}
                   {| env_complianceThreshold := nan;
                      env_auditEnabled := false;
                      env_transparencyLevel := None |})
      sample_fresh (JObj []) JUndefined
    = Normal (r, eng')
    /\ safetyStatus r = compliant.
Proof.
  eexists. eexists. split; [ reflexivity | ].
  apply (proj1 (extreme_thresholds _ sample_fresh (JObj []) JUndefined
                  _ _ eq_refl)).
  reflexivity.
Defined.

(* ================================================================== *)
(** ** Recommendations against the risk counts                        *)
(* ================================================================== *)

Lemma length_pass2 (aiSystem : JsValue) (sc : SafetyChecks) :
  List.length (pass2 sc) = warnings (assessRisk aiSystem sc).
Proof.
  unfold assessRisk. cbn [warnings]. rewrite reduce_warnings. cbn [Nat.add].
  unfold pass2, Object_values.
  induction sc as [ | [c r] sc IH ]; cbn [flat_map map snd];
    [ reflexivity | ].
  rewrite length_app, length_map, filter_app, length_app, IH. reflexivity.
Qed.

Lemma length_pass1 (aiSystem : JsValue) (sc : SafetyChecks) :
  criticalFailures (assessRisk aiSystem sc) <= List.length (pass1 sc)
  /\ (criticalFailures (assessRisk aiSystem sc) = 0 -> pass1 sc = []).
Proof.
  unfold assessRisk. cbn [criticalFailures]. unfold pass1, Object_values.
  induction sc as [ | [c r] sc IH ]; cbn [flat_map map snd filter].
  - split; [ apply Nat.le_refl | reflexivity ].
  - destruct IH as (IH1 & IH2).
    destruct (is_fail r); cbn [andb].
    + rewrite length_app, length_map.
      destruct (existsb is_error (checks r)) eqn:E.
      * cbn [List.length]. apply existsb_exists in E.
        destruct E as (i & Hi & He).
        assert (Hpos : 1 <= List.length (filter is_error (checks r))).
        { assert (Hin : In i (filter is_error (checks r)))
            by (apply filter_In; split; assumption).
          destruct (filter is_error (checks r)); [ contradiction | ].
          cbn [List.length]. lia. }
        split; [ lia | discriminate ].
      * assert (Hnil : filter is_error (checks r) = []).
        { apply filter_none. intros x Hx.
          destruct (is_error x) eqn:Ex; [ | reflexivity ].
          assert (existsb is_error (checks r) = true)
            by (apply existsb_exists; eauto).
          congruence. }
        rewrite Hnil. cbn [List.length map app Nat.add].
        split; [ exact IH1 | exact IH2 ].
    + cbn [List.length app Nat.add]. split; [ exact IH1 | exact IH2 ].
Qed.

(** X11. For every [safetyChecks] object, the recommendations are at least as
    many as the critical failures and the warnings of its risk assessment
    together, and there is none exactly when both counts are 0: a risk
    level other than low always comes with a recommendation. *)
Theorem recommendations_cover_the_risk_counts (aiSystem : JsValue)
  (sc : SafetyChecks) :
  let risk := assessRisk aiSystem sc in
  let recs := generateRecommendations sc risk in
  criticalFailures risk + warnings risk <= List.length recs
  /\ (recs = [] <-> criticalFailures risk = 0 /\ warnings risk = 0)
  /\ (level risk <> risk_low -> recs <> []).
Proof.
  cbv zeta. rewrite generateRecommendations_passes.
  pose proof (length_pass1 aiSystem sc) as (H1 & H1').
  pose proof (length_pass2 aiSystem sc) as H2.
  assert (Hiff : pass1 sc ++ pass2 sc = [] <->
                 criticalFailures (assessRisk aiSystem sc) = 0
                 /\ warnings (assessRisk aiSystem sc) = 0).
  { split.
    - intros E. apply app_eq_nil in E. destruct E as (E1 & E2).
      rewrite E1 in H1. rewrite E2 in H2. cbn [List.length] in H1, H2.
      split; lia.
    - intros (Hc & Hw). rewrite (H1' Hc).
      rewrite Hw in H2. destruct (pass2 sc); [ reflexivity | ].
      discriminate H2. }
  split; [ rewrite length_app; lia | ].
  split; [ exact Hiff | ].
  intros Hl E. apply Hiff in E. destruct E as (Hc & Hw).
  apply Hl. unfold assessRisk in *. cbn [level criticalFailures warnings] in *.
  rewrite Hc, Hw. reflexivity.
Qed.

Lemma recommendations_cover_the_risk_counts_witness :
  generateRecommendations mixed_results (assessRisk JNull mixed_results)
  <> [].
Proof.
  apply (proj2 (proj2 (recommendations_cover_the_risk_counts JNull
                         mixed_results))).
  discriminate.
Defined.

(* ================================================================== *)
(** ** Fixing a deficiency                                            *)
(* ================================================================== *)

Ltac split_two_descriptors d d' Hrows :=
  repeat match goal with
    | |- context [deficient d' ?r] =>
        let Hr := fresh "Hr" in
        pose proof (Hrows r ltac:(simpl; tauto)) as Hr;
        destruct (deficient d' r), (deficient d r);
        try (specialize (Hr eq_refl); discriminate Hr); clear Hr
    end.

(** X12. A descriptor that lacks no flag the other one has never gets the
    lower score from a check, nor the worse status, nor fewer issues:
    fixing a deficiency cannot make a category look worse. *)
Theorem fixing_a_flag_never_lowers_a_category (d d' : JsValue) :
  inspectable d = true -> inspectable d' = true ->
  forall c f, In (c, f) category_checks ->
  (forall row, In row (table c) ->
     deficient d' row = true -> deficient d row = true) ->
  exists r r', f d = Normal r /\ f d' = Normal r'
    /\ (score r <=? score r')%float = true
    /\ status_rank (status r) <= status_rank (status r')
    /\ List.length (checks r') <= List.length (checks r).
Proof.
  intros H H' c f Hin Hrows.
  destruct (check_is_body_then_return c f Hin) as (body & Hb & Hf).
  destruct (bodies_total d H c body Hb) as ([issues s] & Hst & Hty & Hsc).
  destruct (bodies_total d' H' c body Hb) as ([issues' s'] & Hst' & Hty' & Hsc').
  cbn [fst snd] in Hty, Hsc, Hty', Hsc'.
  eexists. eexists.
  split; [ rewrite Hf, Hst; reflexivity | ].
  split; [ rewrite Hf, Hst'; reflexivity | ].
  cbn [score status checks fst snd].
  rewrite <- (length_map type issues), <- (length_map type issues'),
    Hty, Hty', !length_map.
  subst s s'. clear Hst Hst' Hty Hty' Hf Hb Hin.
  destruct c; unfold deductions, table in *; cbn [filter];
    split_two_descriptors d d' Hrows;
    vm_compute; repeat split; lia.
Qed.

Lemma fixing_a_flag_never_lowers_a_category_witness :
  exists r r',
    checkEthicalGuidelines (JObj []) = Normal r
    /\ checkEthicalGuidelines no_harm_prevention = Normal r'
    /\ (score r <=? score r')%float = true
    /\ status_rank (status r) <= status_rank (status r')
    /\ List.length (checks r') <= List.length (checks r).
Proof.
  apply (fixing_a_flag_never_lowers_a_category (JObj []) no_harm_prevention
           eq_refl eq_refl ethicalGuidelines checkEthicalGuidelines).
  - simpl. tauto.
  - intros row Hin _. simpl in Hin.
    repeat (destruct Hin as [<- | Hin]; [ reflexivity | ]). contradiction.
Defined.

(* ================================================================== *)
(** ** The dashboard and its trends                                   *)
(* ================================================================== *)







(** The validations the dashboard works on. *)
Lemma dashboard_validations (Date_value : string -> float)
  (Date_of_number : float -> float) (Date_now : nat -> float)
  (svc : VoidGuardService) (filters : Filters) :
  let validations :=
    filter (fun event => String.eqb (audit_type event) "safety_validation")
           (getAuditLog Date_value (safetyEngine svc) filters) in
  let dash := getComplianceDashboard Date_value Date_of_number Date_now
                svc filters in
  totalValidations (summary dash) = List.length validations
  /\ compliantSystems (summary dash)
     = List.length
         (filter (fun v => is_compliant (summary_status (audit_result v)))
                 validations)
  /\ recentValidations dash = slice_last 10 validations
  /\ trends dash
     = calculateComplianceTrends Date_value Date_of_number Date_now
         validations.
Proof. cbv zeta. repeat split; reflexivity. Qed.


Lemma slice_last_snoc {A : Type} (k : nat) (l : list A) (x : A) :
  1 <= k -> exists earlier, slice_last k (l ++ [x]) = earlier ++ [x].
Proof.
  intros Hk. unfold slice_last. rewrite length_app. cbn [List.length].
  exists (skipn (List.length l + 1 - k) l).
  rewrite skipn_app.
  replace (List.length l + 1 - k - List.length l) with 0 by lia.
  reflexivity.
Qed.

(** X15. After a validation through the service facade has returned, with
    auditing enabled, the unfiltered dashboard ends its recent
    validations with the entry of that validation (its id, verdict, score
    and risk level), and counts it. *)
Theorem dashboard_shows_the_latest_validation
  (Date_value : string -> float) (Date_of_number : float -> float)
  (Date_now : nat -> float) (svc svc' : VoidGuardService) (fresh : Fresh)
  (d options : JsValue) (r : ValidationResult) :
  validateAISystem svc fresh d options = Normal (r, svc') ->
  auditEnabled (config (safetyEngine svc)) = true ->
  let dash := getComplianceDashboard Date_value Date_of_number Date_now
                svc' no_filters in
  (exists earlier, recentValidations dash = earlier ++ [entry_of fresh r])
  /\ 1 <= totalValidations (summary dash)
  /\ (safetyStatus r = compliant -> 1 <= compliantSystems (summary dash)).
Proof.
  intros Hv Ha. cbv zeta.
  unfold validateAISystem in Hv. cbv zeta in Hv.
  apply bind_Normal in Hv. destruct Hv as ([r0 eng'] & Hv & Hret).
  unfold ret in Hret. cbn [fst snd] in Hret. injection Hret as -> <-.
  apply validateSafety_engine in Hv. destruct Hv as (_ & _ & He).
  rewrite Ha in He.
  pose proof (dashboard_validations Date_value Date_of_number Date_now
                {| safetyEngine := eng' |} no_filters) as H.
  cbv zeta in H. destruct H as (Ht & Hc & Hr & _).
  rewrite Ht, Hc, Hr. clear Ht Hc Hr.
  rewrite getAuditLog_no_filters. cbn [safetyEngine]. subst eng'.
  cbn [auditLog].
  destruct (slice_last_snoc 1000 (auditLog (safetyEngine svc))
              (entry_of fresh r)) as (l1 & E1); [ lia | ].
  rewrite E1, filter_app. cbn [filter].
  change (String.eqb (audit_type (entry_of fresh r)) "safety_validation")
    with true. cbv iota.
  split.
  { apply slice_last_snoc. lia. }
  split.
  { rewrite length_app. cbn [List.length]. lia. }
  intros Hs. rewrite filter_app, length_app. cbn [filter].
  change (summary_status (audit_result (entry_of fresh r)))
    with (safetyStatus r).
  rewrite Hs. cbn [is_compliant List.length]. lia.
Qed.

Lemma dashboard_shows_the_latest_validation_witness :
  exists r svc',
    validateAISystem {| safetyEngine := audit_engine |} sample_fresh
      fully_compliant JUndefined = Normal (r, svc')
    /\ 1 <= totalValidations
              (summary (getComplianceDashboard (fun _ => 0%float)
                          (fun x => x) (fun _ => 0%float) svc' no_filters)).
Proof.
  eexists. eexists. split; [ reflexivity | ].
  exact (proj1 (proj2
           (dashboard_shows_the_latest_validation (fun _ => 0%float)
              (fun x => x) (fun _ => 0%float)
              {| safetyEngine := audit_engine |} _ sample_fresh
              fully_compliant JUndefined _ eq_refl eq_refl))).
Defined.

(** X16. On an engine in use, the unfiltered dashboard counts every entry of
    the audit log as a validation (as many as [getHealthStatus] reports),
    counts as compliant exactly the entries whose recorded score reaches
    the engine's threshold, and lists the last ten entries of the log. *)
Theorem dashboard_of_an_engine_in_use (Date_value : string -> float)
  (Date_of_number : float -> float) (Date_now : nat -> float)
  (cfg : ConfigArg) (env : ProcessEnv) (eng : Engine) (now : string) :
  reachable cfg env eng ->
  let dash := getComplianceDashboard Date_value Date_of_number Date_now
                {| safetyEngine := eng |} no_filters in
  totalValidations (summary dash) = auditLogSize (getHealthStatus eng now)
  /\ totalValidations (summary dash) <= 1000
  /\ compliantSystems (summary dash)
     = List.length
         (filter (fun e => (complianceThreshold (config eng)
                            <=? summary_score (audit_result e))%float)
                 (auditLog eng))
  /\ recentValidations dash = slice_last 10 (auditLog eng).
Proof.
  intros Hr. cbv zeta.
  pose proof (reachable_keeps_invariant cfg env eng Hr)
    as (_ & Hlen & Hall & _).
  pose proof (dashboard_validations Date_value Date_of_number Date_now
                {| safetyEngine := eng |} no_filters) as H.
  cbv zeta in H. destruct H as (Ht & Hc & Hrec & _).
  rewrite Ht, Hc, Hrec. clear Ht Hc Hrec.
  rewrite getAuditLog_no_filters. cbn [safetyEngine].
  assert (Hval : filter (fun event =>
                           String.eqb (audit_type event) "safety_validation")
                        (auditLog eng) = auditLog eng).
  { rewrite <- (filter_all (auditLog eng)) at 2.
    apply filter_ext_in. intros e He.
    rewrite Forall_forall in Hall. destruct (Hall e He) as (Hty & _).
    rewrite Hty. reflexivity. }
  rewrite Hval. unfold getHealthStatus. cbn [auditLogSize].
  split; [ reflexivity | ]. split; [ exact Hlen | ].
  split; [ | reflexivity ].
  f_equal. apply filter_ext_in. intros e He.
  rewrite Forall_forall in Hall. destruct (Hall e He) as (_ & Hst).
  rewrite Hst.
  destruct (complianceThreshold (config eng)
            <=? summary_score (audit_result e))%float; reflexivity.
Qed.

Lemma dashboard_of_an_engine_in_use_witness :
  let dash := getComplianceDashboard (fun _ => 0%float) (fun x => x)
                (fun _ => 0%float) {| safetyEngine := validated_once |}
                no_filters in
  totalValidations (summary dash)
  = auditLogSize (getHealthStatus validated_once "2024-01-01T00:00:00.002Z")
  /\ totalValidations (summary dash) <= 1000
  /\ compliantSystems (summary dash)
     = List.length
         (filter (fun e => (complianceThreshold (config validated_once)
                            <=? summary_score (audit_result e))%float)
                 (auditLog validated_once))
  /\ recentValidations dash = slice_last 10 (auditLog validated_once).
Proof.
  apply (dashboard_of_an_engine_in_use (fun _ => 0%float) (fun x => x)
           (fun _ => 0%float)
           {| arg_complianceThreshold := None;
              arg_auditEnabled := Some true;
              arg_transparencyLevel := None |}
           {| env_complianceThreshold := nan;
              env_auditEnabled := false;
              env_transparencyLevel := None |}).
  refine (reachable_validate _ _ audit_engine validated_once sample_fresh
            fully_compliant JUndefined _ (reachable_new _ _) _).
  reflexivity.
Defined.

(* ================================================================== *)
(** ** When a validation returns                                      *)
(* ================================================================== *)

Lemma performSafetyChecks_Normal_no_regulatory (d context : JsValue)
  (sc : SafetyChecks) :
  performSafetyChecks d (default_parameter context (JObj [])) = Normal sc ->
  no_regulatory context = true.
Proof.
  unfold performSafetyChecks. intros H.
  do 7 (apply bind_Normal in H; destruct H as (? & _ & H)).
  apply bind_Normal in H. destruct H as (reg & Hreg & H).
  destruct (ToBoolean reg) eqn:T; [ discriminate H | ]. clear H.
  destruct context; cbn in Hreg |- *; try discriminate Hreg;
    try reflexivity; injection Hreg as <-; rewrite T; reflexivity.
Qed.

(** X17. [validateSafety] returns exactly when the descriptor is inspectable
    and the context requests no regulatory check (every context with a
    truthy [regulatory] entry makes it throw); the result then carries
    the seven fixed categories, in their order, and never a regulatory
    one. *)
Theorem validateSafety_returns_exactly_when (eng : Engine) (fresh : Fresh)
  (d context : JsValue) :
  ((exists r eng', validateSafety eng fresh d context = Normal (r, eng'))
   <-> inspectable d = true /\ no_regulatory context = true)
  /\ (forall r eng',
        validateSafety eng fresh d context = Normal (r, eng') ->
        map fst (safetyChecks r) = fixed_categories).
Proof.
  split.
  - split.
    + intros (r & eng' & Hv).
      assert (Hv' := Hv).
      unfold validateSafety in Hv. cbv zeta in Hv.
      apply bind_Normal in Hv. destruct Hv as (x & Hx & _).
      split; [ exact (Get_Normal_inspectable _ _ _ Hx) | ].
      apply validateSafety_Normal in Hv'. destruct Hv' as (sc & Hsc & _).
      exact (performSafetyChecks_Normal_no_regulatory _ _ _ Hsc).
    + intros (H & Hctx).
      destruct (performSafetyChecks_seven d context H Hctx)
        as (r1 & r2 & r3 & r4 & r5 & r6 & r7
            & _ & _ & _ & _ & _ & _ & _ & Hsc).
      exact (validateSafety_returns eng fresh d context _ H Hsc).
  - intros r eng' Hv.
    destruct (validateSafety_seven_outcomes _ _ _ _ _ _ Hv)
      as (r1 & r2 & r3 & r4 & r5 & r6 & r7 & _ & _ & _ & _ & _ & _ & _ & Hsc).
    rewrite Hsc. reflexivity.
Qed.

Lemma validateSafety_returns_exactly_when_witness :
  exists r eng',
    validateSafety default_engine sample_fresh no_harm_prevention (JObj [])
    = Normal (r, eng').
Proof.
  apply (proj1 (validateSafety_returns_exactly_when default_engine
                  sample_fresh no_harm_prevention (JObj []))).
  split; reflexivity.
Defined.

(* ================================================================== *)
(** ** Appending and finding an audit event                           *)
(* ================================================================== *)

(** X18. An event just logged is the last entry of the log, under the new
    identifier and with its own timestamp (the clock's when it has
    none); a query for its type finds it, and so does a query without
    filters. *)
Theorem logged_event_is_found (Date_value : string -> float)
  (eng : Engine) (event : Event) (uuid now : string) :
  let eng' := logAuditEvent eng event uuid now in
  let entry := stamp (event, (uuid, now)) in
  (exists earlier, getAuditLog Date_value eng' no_filters = earlier ++ [entry])
  /\ (event_type event <> "" ->
      exists earlier,
        getAuditLog Date_value eng'
          {| filter_type := Some (event_type event);
             startDate := None; endDate := None |}
        = earlier ++ [entry])
  /\ audit_id entry = uuid
  /\ (forall ts, event_timestamp event = Some ts -> ts <> "" ->
        audit_timestamp entry = ts)
  /\ (event_timestamp event = None -> audit_timestamp entry = now)
  /\ config eng' = config eng.
Proof.
  cbv zeta.
  destruct (slice_last_snoc 1000 (auditLog eng) (stamp (event, (uuid, now))))
    as (l & El); [ lia | ].
  split.
  { exists l. rewrite getAuditLog_no_filters, logAuditEvent_log. exact El. }
  split.
  { intros Hne. rewrite getAuditLog_as_filter, logAuditEvent_log, El.
    cbn [filter_type startDate endDate truthy_string].
    replace (negb (String.eqb (event_type event) "")) with true
      by (symmetry; apply negb_true_iff; apply String.eqb_neq; exact Hne).
    rewrite filter_app. cbn [filter].
    rewrite (string_or_Some _ Hne).
    change (audit_type (stamp (event, (uuid, now)))) with (event_type event).
    rewrite String.eqb_refl. cbn [andb]. eexists. reflexivity. }
  split; [ reflexivity | ].
  split.
  { intros ts Ets Hne. cbn. rewrite Ets. unfold string_or.
    destruct (String.eqb_spec ts ""); [ contradiction | reflexivity ]. }
  split.
  { intros Ets. cbn. rewrite Ets. reflexivity. }
  reflexivity.
Qed.

Lemma logged_event_is_found_witness :
  exists earlier,
    getAuditLog (fun _ => 0%float)
      (logAuditEvent audit_engine (fst (nth_request 7)) "id-7" "now")
      {| filter_type := Some "safety_validation";
         startDate := None; endDate := None |}
    = earlier ++ [ stamp (fst (nth_request 7), ("id-7", "now")) ].
Proof.
  apply (proj1 (proj2 (logged_event_is_found (fun _ => 0%float) audit_engine
                         (fst (nth_request 7)) "id-7" "now"))).
  discriminate.
Defined.

(* ================================================================== *)
(** ** The action table against the messages of the checks            *)
(* ================================================================== *)

Lemma mapped_outcomes (c : Category)
  (f : JsValue -> Completion CategoryResult) :
  In (c, f) [ (ethicalGuidelines, checkEthicalGuidelines);
              (dataPrivacy, checkDataPrivacy);
              (humanControl, checkHumanControl) ] ->
  forallb (fun r =>
             forallb (fun i =>
                        implb (negb (Category_eqb c humanControl)
                               || is_error i)
                              (negb (String.eqb
                                       (getRecommendedAction c
                                          (issue_message i))
                                       generic_action)))
                     (checks r))
          (outcomes c f) = true.
Proof.
  intros [Hin | [Hin | [Hin | []]]]; inversion Hin; subst; vm_compute;
    reflexivity.
Qed.

(** X19. Every issue the ethical-guidelines and data-privacy checks can
    report, and every error the human-control check can report, has an
    action of its own in the action table: the messages of these checks
    and the keys of the table agree. *)
Theorem reported_issues_have_their_action (d : JsValue) :
  inspectable d = true ->
  forall c f,
  In (c, f) [ (ethicalGuidelines, checkEthicalGuidelines);
              (dataPrivacy, checkDataPrivacy);
              (humanControl, checkHumanControl) ] ->
  exists r, f d = Normal r
    /\ forall i, In i (checks r) ->
         (c = humanControl -> type i = type_error) ->
         getRecommendedAction c (issue_message i) <> generic_action.
Proof.
  intros H c f Hin.
  assert (Hin' : In (c, f) category_checks)
    by (simpl in Hin |- *; tauto).
  destruct (check_outcome d H c f Hin') as (r & Hr & Hout).
  exists r. split; [ exact Hr | ].
  intros i Hi Herr.
  pose proof (mapped_outcomes c f Hin) as Hm.
  rewrite forallb_forall in Hm. specialize (Hm r Hout).
  rewrite forallb_forall in Hm. specialize (Hm i Hi).
  assert (Hcond : negb (Category_eqb c humanControl) || is_error i = true).
  { destruct (Category_eqb c humanControl) eqn:E; [ | reflexivity ].
    cbn [negb orb]. apply is_error_iff, Herr.
    destruct c; try discriminate E; reflexivity. }
  rewrite Hcond in Hm. cbn [implb] in Hm.
  apply negb_true_iff, String.eqb_neq in Hm. exact Hm.
Qed.

Lemma reported_issues_have_their_action_witness :
  exists r, checkHumanControl (JObj []) = Normal r
    /\ forall i, In i (checks r) ->
         (humanControl = humanControl -> type i = type_error) ->
         getRecommendedAction humanControl (issue_message i)
         <> generic_action.
Proof.
  apply (reported_issues_have_their_action (JObj []) eq_refl
           humanControl checkHumanControl).
  simpl. tauto.
Defined.

(* ================================================================== *)
(** ** The order of the entries of [safetyChecks]                     *)
(* ================================================================== *)

Lemma safetyChecks_get_None (c : Category) (sc : SafetyChecks) :
  ~ In c (map fst sc) -> safetyChecks_get c sc = None.
Proof.
  induction sc as [ | [k r] sc IH ]; intros H; cbn [safetyChecks_get];
    [ reflexivity | ].
  cbn [map fst In] in H.
  destruct (Category_eqb k c) eqn:E.
  - exfalso. apply H. left. destruct k, c; try discriminate E; reflexivity.
  - apply IH. intros Hin. apply H. right. exact Hin.
Qed.

Lemma Category_eqb_eq (a b : Category) : Category_eqb a b = true <-> a = b.
Proof. destruct a, b; split; intros H; try discriminate H; reflexivity. Qed.

Lemma safetyChecks_get_permutation (c : Category) (sc sc' : SafetyChecks) :
  Permutation sc sc' -> NoDup (map fst sc) ->
  safetyChecks_get c sc = safetyChecks_get c sc'.
Proof.
  intros HP. induction HP as [ | [k r] l l' HP IH | [k1 r1] [k2 r2] l
                              | l l' l'' HP1 IH1 HP2 IH2 ]; intros Hnd.
  - reflexivity.
  - cbn [safetyChecks_get]. destruct (Category_eqb k c); [ reflexivity | ].
    apply IH. cbn [map fst] in Hnd. inversion Hnd. assumption.
  - cbn [safetyChecks_get].
    destruct (Category_eqb k1 c) eqn:E1; destruct (Category_eqb k2 c) eqn:E2;
      try reflexivity.
    apply Category_eqb_eq in E1, E2. subst k1 k2.
    cbn [map fst] in Hnd. inversion Hnd as [ | ? ? Hnotin _ ].
    exfalso. apply Hnotin. left. reflexivity.
  - rewrite IH1 by exact Hnd. apply IH2.
    apply (Permutation_NoDup (Permutation_map fst HP1) Hnd).
Qed.

Lemma assessRisk_cons (aiSystem : JsValue) (e : Category * CategoryResult)
  (sc : SafetyChecks) :
  criticalFailures (assessRisk aiSystem (e :: sc))
  = (if is_fail (snd e) && existsb is_error (checks (snd e)) then 1 else 0)
    + criticalFailures (assessRisk aiSystem sc)
  /\ warnings (assessRisk aiSystem (e :: sc))
     = List.length (filter is_warning (checks (snd e)))
       + warnings (assessRisk aiSystem sc).
Proof.
  unfold assessRisk. cbn [criticalFailures warnings Object_values map filter].
  split.
  - destruct (is_fail (snd e) && existsb is_error (checks (snd e)));
      reflexivity.
  - rewrite !reduce_warnings. cbn [flat_map]. rewrite filter_app, length_app.
    cbn [Nat.add]. reflexivity.
Qed.

Lemma assessRisk_level (aiSystem : JsValue) (sc sc' : SafetyChecks) :
  criticalFailures (assessRisk aiSystem sc)
  = criticalFailures (assessRisk aiSystem sc') ->
  warnings (assessRisk aiSystem sc) = warnings (assessRisk aiSystem sc') ->
  assessRisk aiSystem sc = assessRisk aiSystem sc'.
Proof.
  unfold assessRisk. cbn [criticalFailures warnings].
  intros -> ->. reflexivity.
Qed.

Lemma assessRisk_permutation (aiSystem : JsValue) (sc sc' : SafetyChecks) :
  Permutation sc sc' -> assessRisk aiSystem sc = assessRisk aiSystem sc'.
Proof.
  intros HP. induction HP as [ | e l l' HP IH | e1 e2 l
                              | l l' l'' HP1 IH1 HP2 IH2 ].
  - reflexivity.
  - destruct (assessRisk_cons aiSystem e l) as (C1 & W1).
    destruct (assessRisk_cons aiSystem e l') as (C2 & W2).
    apply assessRisk_level; rewrite ?C1, ?C2, ?W1, ?W2, IH; reflexivity.
  - destruct (assessRisk_cons aiSystem e1 (e2 :: l)) as (C1 & W1).
    destruct (assessRisk_cons aiSystem e2 l) as (C2 & W2).
    destruct (assessRisk_cons aiSystem e2 (e1 :: l)) as (C3 & W3).
    destruct (assessRisk_cons aiSystem e1 l) as (C4 & W4).
    apply assessRisk_level; rewrite ?C1, ?C2, ?C3, ?C4, ?W1, ?W2, ?W3, ?W4;
      lia.
  - rewrite IH1. exact IH2.
Qed.

(** X20. The compliance score and the risk assessment do not depend on the
    order in which the categories were entered into [safetyChecks], and
    the recommendations are the same up to their order. *)
Theorem results_do_not_depend_on_entry_order (aiSystem : JsValue)
  (sc sc' : SafetyChecks) :
  Permutation sc sc' -> NoDup (map fst sc) ->
  calculateComplianceScore sc = calculateComplianceScore sc'
  /\ assessRisk aiSystem sc = assessRisk aiSystem sc'
  /\ forall risk risk',
       Permutation (generateRecommendations sc risk)
                   (generateRecommendations sc' risk').
Proof.
  intros HP Hnd.
  split.
  { unfold calculateComplianceScore.
    assert (E : forall ws acc,
               fold_left (accumulate sc) ws acc
               = fold_left (accumulate sc') ws acc).
    { induction ws as [ | [c w] ws IH ]; intros [ts tw]; cbn [fold_left];
        [ reflexivity | ].
      unfold accumulate at 2 4.
      rewrite (safetyChecks_get_permutation c sc sc' HP Hnd). apply IH. }
    rewrite E. reflexivity. }
  split; [ apply assessRisk_permutation; exact HP | ].
  intros risk risk'. rewrite !generateRecommendations_passes.
  apply Permutation_app.
  - unfold pass1. apply Permutation_flat_map. exact HP.
  - unfold pass2. apply Permutation_flat_map. exact HP.
Qed.

Lemma results_do_not_depend_on_entry_order_witness :
  calculateComplianceScore two_categories
  = calculateComplianceScore (rev two_categories)
  /\ assessRisk JNull two_categories = assessRisk JNull (rev two_categories)
  /\ forall risk risk',
       Permutation (generateRecommendations two_categories risk)
                   (generateRecommendations (rev two_categories) risk').
Proof.
  apply (results_do_not_depend_on_entry_order JNull two_categories
           (rev two_categories)).
  - apply Permutation_rev.
  - repeat constructor; simpl; intuition discriminate.
Defined.
